(** * Autoconfiguration handlers of mox (http/autoconf.go)

    A shallow embedding of the three discovery handlers of
    [http/autoconf.go]: [autoconfHandle] (Thunderbird autoconfig),
    [autodiscoverHandle] (Microsoft Autodiscover) and
    [mobileconfigHandle] (Apple device profile), with the two local
    TLS vocabulary mappers [socketType] and [tlsmode].

    Go strings are byte sequences and are modelled by [string]; Go [int]
    by [Z]; a Go [error] by [option string] ([None] is [nil], [Some m] an
    error whose [Error()] text is [m]).  Header maps and Prometheus
    counter vectors are finite maps ([gmap]).  A handler is a state
    transformer over the response writer, the two counter vectors, the
    log and the request body reader, with an explicit early [return]. *)

From Stdlib Require Import ZArith String Ascii List Bool Lia.
From stdpp Require Import base option gmap strings list fin_maps pretty.
Import ListNotations.

Local Open Scope string_scope.
Local Open Scope Z_scope.

(** ** Go values *)

(** A Go [error]: [nil] or a value with an [Error()] text. *)
Definition error : Type := option string.

Definition nil : error := None.

(** [fmt.Errorf] with the format already expanded. *)
Definition Errorf (msg : string) : error := Some msg.

(** [err.Error()] of a non-nil error; the handlers only call it behind an
    [err != nil] test. *)
Definition Error_text (err : error) : string :=
  match err with
  | Some m => m
  | None => EmptyString
  end.

Definition is_nil (err : error) : bool :=
  match err with
  | None => true
  | Some _ => false
  end.

(** The byte [0x22], for the quoted file name of [Content-Disposition]. *)
Definition dquote : string := String (ascii_of_nat 34) EmptyString.

(** ** Package strings *)

Module strings.

(** [s[n:]]; the callers below slice behind a [HasPrefix] test, so the
    index is in range. *)
Fixpoint sliceFrom (n : nat) (s : string) : string :=
  match n, s with
  | O, _ => s
  | S k, String _ t => sliceFrom k t
  | S _, EmptyString => EmptyString
  end.

(** [strings.HasPrefix(s, prefix)]. *)
Definition HasPrefix (s prefix : string) : bool := String.prefix prefix s.

(** [strings.TrimPrefix(s, prefix)]: [s] without the leading [prefix], or
    [s] itself when it does not start with [prefix]. *)
Definition TrimPrefix (s prefix : string) : string :=
  if HasPrefix s prefix then sliceFrom (String.length prefix) s else s.

(** Scanning loop of [strings.Split] for a non-empty separator: the piece
    under construction and the pieces after it.  [skip] counts the bytes of
    a matched separator that are still to be passed over, so matches are
    taken left to right and do not overlap. *)
Fixpoint splitFrom (sep : string) (skip : nat) (s : string) : string * list string :=
  match s with
  | EmptyString => (EmptyString, [])
  | String c t =>
      match skip with
      | S k => splitFrom sep k t
      | O =>
          if String.prefix sep s then
            let '(p, ps) := splitFrom sep (String.length sep - 1) t in
            (EmptyString, p :: ps)
          else
            let '(p, ps) := splitFrom sep 0 t in
            (String c p, ps)
      end
  end.

(** [strings.Split(s, sep)] for a non-empty [sep] (the handler passes the
    one-byte separator [","]).  The result always has at least one piece. *)
Definition Split (s sep : string) : list string :=
  let '(p, ps) := splitFrom sep 0 s in p :: ps.

(** Scanning loop of [strings.ReplaceAll] for a non-empty [old]. *)
Fixpoint replaceFrom (old new : string) (skip : nat) (s : string) : string :=
  match s with
  | EmptyString => EmptyString
  | String c t =>
      match skip with
      | S k => replaceFrom old new k t
      | O =>
          if String.prefix old s then
            new +:+ replaceFrom old new (String.length old - 1) t
          else
            String c (replaceFrom old new 0 t)
      end
  end.

(** [strings.ReplaceAll(s, old, new)] for a non-empty [old] (the handler
    passes the one-byte patterns ["."] and ["@"]). *)
Definition ReplaceAll (s old new : string) : string := replaceFrom old new 0 s.

(** [s[:n]]; the caller below slices behind a [HasSuffix] test, so the
    index is in range. *)
Fixpoint sliceTo (n : nat) (s : string) : string :=
  match n, s with
  | O, _ => EmptyString
  | S k, String c t => String c (sliceTo k t)
  | S _, EmptyString => EmptyString
  end.

(** [strings.HasSuffix(s, suffix)]:
    [len(s) >= len(suffix) && s[len(s)-len(suffix):] == suffix]. *)
Definition HasSuffix (s suffix : string) : bool :=
  (String.length suffix <=? String.length s)%nat
  && String.eqb (sliceFrom (String.length s - String.length suffix) s) suffix.

(** [strings.TrimSuffix(s, suffix)]: [s] without the trailing [suffix], or
    [s] itself when it does not end in [suffix]. *)
Definition TrimSuffix (s suffix : string) : string :=
  if HasSuffix s suffix then sliceTo (String.length s - String.length suffix) s else s.

End strings.

(** ** Packages dns, smtp and admin: the types the handlers use *)

Module dns.

(** [dns.Domain]: the fields the handlers read and write. *)
Record Domain : Type := mkDomain {
  ASCII : string;
  Unicode : string
}.

End dns.

Module smtp.

(** [smtp.Address]: the handlers read its [Domain] only. *)
Record Address : Type := mkAddress {
  Localpart : string;
  Domain : dns.Domain
}.

End smtp.

Module admin.

(** [admin.TLSMode] is an enumeration type declared outside this file; its
    values are represented by integers.  The three constants the handlers
    switch on are parameters of the development (see [Imports]). *)
Definition TLSMode : Type := Z.

(** One service of a client configuration, as read through
    [config.IMAP] and [config.Submission]. *)
Record ProtocolConfig : Type := mkProtocolConfig {
  Host : dns.Domain;
  Port : Z;
  TLSMode_of : TLSMode;
  EnabledOnHTTPS : bool
}.

Record ClientConfig : Type := mkClientConfig {
  IMAP : ProtocolConfig;
  Submission : ProtocolConfig
}.

End admin.

(** ** The XML documents of the file *)

(** [xml.Name]. *)
Record xmlName : Type := mkXmlName {
  Space : string;
  Local : string
}.

Record incomingServer : Type := mkIncomingServer {
  in_Type : string;
  in_Hostname : string;
  in_Port : Z;
  in_SocketType : string;
  in_Username : string;
  in_Authentication : string
}.

Record outgoingServer : Type := mkOutgoingServer {
  out_Type : string;
  out_Hostname : string;
  out_Port : Z;
  out_SocketType : string;
  out_Username : string;
  out_Authentication : string
}.

(** [autoconfigResponse], the nested structs flattened. *)
Record autoconfigResponse : Type := mkAutoconfigResponse {
  clientConfig_XMLName : xmlName;
  Version : string;
  EmailProvider_ID : string;
  EmailProvider_Domain : string;
  EmailProvider_DisplayName : string;
  EmailProvider_DisplayShortName : string;
  EmailProvider_IncomingServers : list incomingServer;
  EmailProvider_OutgoingServers : list outgoingServer;
  ClientConfigUpdate_URL : string
}.

(** [autodiscoverRequest]. *)
Record autodiscoverRequest : Type := mkAutodiscoverRequest {
  Request_EmailAddress : string;
  Request_AcceptableResponseSchema : string
}.

Record autodiscoverProtocol : Type := mkAutodiscoverProtocol {
  Type_ : string;
  Server : string;
  Port : Z;
  DirectoryPort : Z;
  ReferralPort : Z;
  LoginName : string;
  SSL : string;
  Encryption : string;
  SPA : string;
  AuthRequired : string
}.

Record autodiscoverAccount : Type := mkAutodiscoverAccount {
  AccountType : string;
  Action : string;
  Protocol : list autodiscoverProtocol
}.

(** [autodiscoverResponse], the nested struct flattened. *)
Record autodiscoverResponse : Type := mkAutodiscoverResponse {
  XMLName : xmlName;
  Response_XMLName : xmlName;
  Response_Account : autodiscoverAccount
}.

(** ** Package net/http and the state a handler acts on *)

Definition StatusOK : Z := 200.
Definition StatusBadRequest : Z := 400.
Definition StatusMethodNotAllowed : Z := 405.
Definition StatusInternalServerError : Z := 500.

(** [*http.Request]: the fields the handlers read.  [Form] is the parsed
    form in the order [FormValue] searches it. *)
Record Request : Type := mkRequest {
  Method : string;
  Host : string;
  Form : list (string * string);
  Body : string
}.

(** [r.FormValue(key)]: the first value of [key], or the empty string. *)
Fixpoint lookupForm (key : string) (form : list (string * string)) : string :=
  match form with
  | [] => EmptyString
  | (k, v) :: rest => if String.eqb k key then v else lookupForm key rest
  end.

Definition FormValue (r : Request) (key : string) : string :=
  lookupForm key (Form r).

(** What is written to the response body.  The XML encoder's output is
    kept as the value it encodes. *)
Inductive Chunk : Type :=
  | Text (s : string)
  | Bytes (buf : list Byte.byte)
  | AutoconfigXML (resp : autoconfigResponse)
  | AutodiscoverXML (resp : autodiscoverResponse).

(** [http.ResponseWriter]: the header map, the status line once it is
    written, and the body written so far. *)
Record ResponseWriter : Type := mkResponseWriter {
  header : gmap string string;
  status : option Z;
  body : list Chunk
}.

Definition newResponseWriter : ResponseWriter :=
  {| header := ∅; status := None; body := [] |}.

(** A record of the structured log. *)
Record LogRecord : Type := mkLogRecord {
  log_msg : string;
  log_key : string;
  log_value : string
}.

(** Everything a handler can change: the response writer [w], the two
    counter vectors (keyed by the value of their [domain] label), the log,
    and whether [r.Body] has been read. *)
Record World : Type := mkWorld {
  w : ResponseWriter;
  metricAutoconf : gmap string nat;
  metricAutodiscover : gmap string nat;
  logged : list LogRecord;
  bodyRead : bool
}.

Definition with_w (f : ResponseWriter -> ResponseWriter) (s : World) : World :=
  {| w := f (w s); metricAutoconf := metricAutoconf s;
     metricAutodiscover := metricAutodiscover s; logged := logged s;
     bodyRead := bodyRead s |}.

(** A statement falls through with a value, executes [return], or panics
    (an index out of range). *)
Inductive Flow (A : Type) : Type :=
  | Next (a : A)
  | Returned
  | Panicked.
Arguments Next {A} a.
Arguments Returned {A}.
Arguments Panicked {A}.

Definition Handler (A : Type) : Type := World -> Flow A * World.

Definition ret {A : Type} (a : A) : Handler A := fun s => (Next a, s).

Definition bind {A B : Type} (m : Handler A) (k : A -> Handler B) : Handler B :=
  fun s =>
    match m s with
    | (Next a, s') => k a s'
    | (Returned, s') => (Returned, s')
    | (Panicked, s') => (Panicked, s')
    end.

(** The [return] statement of a handler. *)
Definition return_ {A : Type} : Handler A := fun s => (Returned, s).

(** A runtime panic. *)
Definition panic {A : Type} : Handler A := fun s => (Panicked, s).

(** [defer d] at the top of a function: [d] runs when the body is left,
    by falling off its end, by [return] or by a panic, which goes on
    after [d]. *)
Definition defer (d : World -> World) (body : Handler unit) : Handler unit :=
  fun s =>
    match body s with
    | (Panicked, s') => (Panicked, d s')
    | (_, s') => (Next tt, d s')
    end.

(** The world a handler leaves behind. *)
Definition serve (h : Handler unit) (s : World) : World := snd (h s).

Declare Scope handler_scope.
Delimit Scope handler_scope with handler.
Notation "'let*' x ':=' m 'in' k" := (bind m (fun x => k))
  (at level 10, x pattern, m at level 100, k at level 200) : handler_scope.
Notation "m ';;' k" := (bind m (fun _ => k))
  (at level 100, k at level 200, right associativity) : handler_scope.
Local Open Scope handler_scope.

(** [h.Set(key, value)] on [w.Header()]. *)
Definition HeaderSet (key value : string) : Handler unit :=
  fun s => (Next tt, with_w (fun rw =>
    {| header := <[key := value]> (header rw); status := status rw; body := body rw |}) s).

(** [w.WriteHeader(code)]: the first status line wins. *)
Definition WriteHeader (code : Z) : Handler unit :=
  fun s => (Next tt, with_w (fun rw =>
    {| header := header rw;
       status := match status rw with Some c => Some c | None => Some code end;
       body := body rw |}) s).

(** [w.Write], [fmt.Fprint(w, ..)] and [enc.Encode] all end in a write on
    [w]; the first write sends status 200 when no status line was written.
    Writes succeed, so the [log.Check] after them logs nothing. *)
Definition Write (c : Chunk) : Handler unit :=
  fun s => (Next tt, with_w (fun rw =>
    {| header := header rw;
       status := match status rw with Some c => Some c | None => Some StatusOK end;
       body := (body rw ++ [c])%list |}) s).

(** [http.Error(w, msg, code)]. *)
Definition http_Error (msg : string) (code : Z) : Handler unit :=
  (fun s => (Next tt, with_w (fun rw =>
     {| header := delete "Content-Length" (header rw); status := status rw;
        body := body rw |}) s)) ;;
  HeaderSet "Content-Type" "text/plain; charset=utf-8" ;;
  HeaderSet "X-Content-Type-Options" "nosniff" ;;
  WriteHeader code ;;
  Write (Text (msg +:+ String (ascii_of_nat 10) EmptyString)).

(** [log.Debug(msg, slog.String(key, value))]. *)
Definition log_Debug (msg key value : string) : Handler unit :=
  fun s => (Next tt,
    {| w := w s; metricAutoconf := metricAutoconf s;
       metricAutodiscover := metricAutodiscover s;
       logged := (logged s ++ [mkLogRecord msg key value])%list;
       bodyRead := bodyRead s |}).

(** [vec.WithLabelValues(label).Inc()] on a counter vector. *)
Definition CounterInc (label : string) (vec : gmap string nat) : gmap string nat :=
  <[label := S (default O (vec !! label))]> vec.

Definition metricAutoconf_Inc (label : string) (s : World) : World :=
  {| w := w s; metricAutoconf := CounterInc label (metricAutoconf s);
     metricAutodiscover := metricAutodiscover s; logged := logged s;
     bodyRead := bodyRead s |}.

Definition metricAutodiscover_Inc (label : string) (s : World) : World :=
  {| w := w s; metricAutoconf := metricAutoconf s;
     metricAutodiscover := CounterInc label (metricAutodiscover s);
     logged := logged s; bodyRead := bodyRead s |}.

(** [if b { h }] with no [else] branch. *)
Definition when (b : bool) (h : Handler unit) : Handler unit :=
  if b then h else ret tt.

(** [xml.Header]. *)
Definition xml_Header : string :=
  "<?xml version=" +:+ dquote +:+ "1.0" +:+ dquote +:+ " encoding=" +:+ dquote
  +:+ "UTF-8" +:+ dquote +:+ "?>" +:+ String (ascii_of_nat 10) EmptyString.

(** ** What the file imports from the rest of the repository

    The functions and constants of packages [dns], [smtp], [admin] and of
    the sibling file that builds the device profile are declared outside
    this file; the handlers are stated over any implementation of them.
    [xml_Decode] is the XML decoder applied to the bytes of the request
    body, [format_TLSMode] the [%v] rendering of a TLS mode. *)
Class Imports : Type := mkImports {
  TLSModeImmediate : admin.TLSMode;
  TLSModeSTARTTLS : admin.TLSMode;
  TLSModeNone : admin.TLSMode;
  format_TLSMode : admin.TLSMode -> string;
  dns_ParseDomain : string -> dns.Domain * error;
  smtp_ParseAddress : string -> smtp.Address * error;
  admin_ClientConfigDomain : dns.Domain -> admin.ClientConfig * error;
  MobileConfig : list string -> string -> list Byte.byte * error;
  xml_Decode : string -> autodiscoverRequest * error
}.

(** The case constants of a Go [switch] are pairwise different (the
    compiler rejects duplicates). *)
Definition distinct_modes `{Imports} : Prop :=
  TLSModeImmediate <> TLSModeSTARTTLS /\
  TLSModeImmediate <> TLSModeNone /\
  TLSModeSTARTTLS <> TLSModeNone.

(** A mode outside the three constants. *)
Definition unknown_mode `{Imports} (m : admin.TLSMode) : Prop :=
  m <> TLSModeImmediate /\ m <> TLSModeSTARTTLS /\ m <> TLSModeNone.

Section Handlers.

Context `{Imports}.

(** ** The TLS vocabulary mappers *)

(** The closure [socketType] of [autoconfHandle] (lines 90-101). *)
Definition socketType (tlsMode : admin.TLSMode) : string * error :=
  if tlsMode =? TLSModeImmediate then ("SSL", nil)
  else if tlsMode =? TLSModeSTARTTLS then ("STARTTLS", nil)
  else if tlsMode =? TLSModeNone then ("plain", nil)
  else (EmptyString, Errorf ("unknown tls mode " +:+ format_TLSMode tlsMode)).

(** The closure [tlsmode] of [autodiscoverHandle] (lines 220-231): the
    [ssl] and [encryption] fields. *)
Definition tlsmode (tlsMode : admin.TLSMode) : string * string * error :=
  if tlsMode =? TLSModeImmediate then ("on", "TLS", nil)
  else if tlsMode =? TLSModeSTARTTLS then ("on", EmptyString, nil)
  else if tlsMode =? TLSModeNone then ("off", EmptyString, nil)
  else (EmptyString, EmptyString,
        Errorf ("unknown tls mode " +:+ format_TLSMode tlsMode)).

(** ** autoconfHandle *)

(** Lines 68-88 of [autoconfHandle]: the domain and the display identity
    of the request, from the [emailaddress] parameter or the request host. *)
Definition autoconfHandle_domain (r : Request) (email : string)
  : Handler (dns.Domain * string) :=
  if String.eqb email EmptyString then
    let email := "%EMAILADDRESS%" in
    let '(domain, err) := dns_ParseDomain (Host r) in
    if negb (is_nil err) then
      http_Error ("400 - bad request - invalid domain: " +:+ Host r) StatusBadRequest ;;
      return_
    else
      let domain :=
        {| dns.ASCII := strings.TrimPrefix (dns.ASCII domain) "autoconfig.";
           dns.Unicode := dns.Unicode domain |} in
      let domain :=
        {| dns.ASCII := dns.ASCII domain;
           dns.Unicode := strings.TrimPrefix (dns.Unicode domain) "autoconfig." |} in
      ret (domain, email)
  else
    let '(addr, err) := smtp_ParseAddress email in
    if negb (is_nil err) then
      http_Error "400 - bad request - invalid parameter emailaddress" StatusBadRequest ;;
      return_
    else
      ret (smtp.Domain addr, email).

(** Lines 116-172: the document for a resolved configuration. *)
Definition autoconfHandle_response (domain : dns.Domain) (email : string)
    (config : admin.ClientConfig) (imapTLS submissionTLS : string)
  : autoconfigResponse :=
  let incoming :=
    mkIncomingServer "imap" (dns.ASCII (admin.Host (admin.IMAP config)))
      (admin.Port (admin.IMAP config)) imapTLS email "password-encrypted" in
  let IncomingServers := ([] ++ [incoming])%list in
  let IncomingServers :=
    if admin.EnabledOnHTTPS (admin.IMAP config) then
      let '(tlsMode, _) := socketType TLSModeImmediate in
      let incomingALPN :=
        mkIncomingServer "imap" (dns.ASCII (admin.Host (admin.IMAP config)))
          443 tlsMode email "password-encrypted" in
      (IncomingServers ++ [incomingALPN])%list
    else IncomingServers in
  let outgoing :=
    mkOutgoingServer "smtp" (dns.ASCII (admin.Host (admin.Submission config)))
      (admin.Port (admin.Submission config)) submissionTLS email
      "password-encrypted" in
  let OutgoingServers := ([] ++ [outgoing])%list in
  let OutgoingServers :=
    if admin.EnabledOnHTTPS (admin.Submission config) then
      let '(tlsMode, _) := socketType TLSModeImmediate in
      let outgoingALPN :=
        mkOutgoingServer "smtp" (dns.ASCII (admin.Host (admin.Submission config)))
          443 tlsMode email "password-encrypted" in
      (OutgoingServers ++ [outgoingALPN])%list
    else OutgoingServers in
  {| clientConfig_XMLName := {| Space := EmptyString; Local := EmptyString |};
     Version := "1.1";
     EmailProvider_ID := dns.ASCII domain;
     EmailProvider_Domain := dns.ASCII domain;
     EmailProvider_DisplayName := email;
     EmailProvider_DisplayShortName := dns.ASCII domain;
     EmailProvider_IncomingServers := IncomingServers;
     EmailProvider_OutgoingServers := OutgoingServers;
     ClientConfigUpdate_URL :=
       "https://autoconfig." +:+ dns.ASCII domain +:+ "/mail/config-v1.1.xml" |}.

(** [autoconfHandle].  The local [addrDom] is declared, captured by the
    deferred closure and never assigned, so the closure reads the empty
    string when the handler is left. *)
Definition autoconfHandle (r : Request) : Handler unit :=
  let addrDom := EmptyString in
  defer (metricAutoconf_Inc addrDom) (
    let email := FormValue r "emailaddress" in
    log_Debug "autoconfig request" "email" email ;;
    let* (domain, email) := autoconfHandle_domain r email in
    let '(config, err) := admin_ClientConfigDomain domain in
    let '(imapTLS, err) :=
      if is_nil err then socketType (admin.TLSMode_of (admin.IMAP config))
      else (EmptyString, err) in
    let '(submissionTLS, err) :=
      if is_nil err then socketType (admin.TLSMode_of (admin.Submission config))
      else (EmptyString, err) in
    when (negb (is_nil err)) (
      http_Error ("400 - bad request - " +:+ Error_text err) StatusBadRequest ;;
      return_) ;;
    let resp := autoconfHandle_response domain email config imapTLS submissionTLS in
    HeaderSet "Content-Type" "application/xml; charset=utf-8" ;;
    Write (Text xml_Header) ;;
    Write (AutoconfigXML resp)).

(** ** autodiscoverHandle *)

(** [xml.NewDecoder(r.Body).Decode(&req)]: reads the request body. *)
Definition decodeBody (r : Request) : Handler (autodiscoverRequest * error) :=
  fun s => (Next (xml_Decode (Body r)),
    {| w := w s; metricAutoconf := metricAutoconf s;
       metricAutodiscover := metricAutodiscover s; logged := logged s;
       bodyRead := true |}).

(** Lines 260-290: the response for a resolved configuration. *)
Definition autodiscoverHandle_response (req : autodiscoverRequest)
    (config : admin.ClientConfig)
    (imapSSL imapEncryption submissionSSL submissionEncryption : string)
  : autodiscoverResponse :=
  {| XMLName :=
       {| Local := "Autodiscover";
          Space := "http://schemas.microsoft.com/exchange/autodiscover/responseschema/2006" |};
     Response_XMLName :=
       {| Local := "Response";
          Space := "http://schemas.microsoft.com/exchange/autodiscover/outlook/responseschema/2006a" |};
     Response_Account :=
       {| AccountType := "email";
          Action := "settings";
          Protocol := [
            {| Type_ := "IMAP";
               Server := dns.ASCII (admin.Host (admin.IMAP config));
               Port := admin.Port (admin.IMAP config);
               DirectoryPort := 0;
               ReferralPort := 0;
               LoginName := Request_EmailAddress req;
               SSL := imapSSL;
               Encryption := imapEncryption;
               SPA := "off";
               AuthRequired := "on" |};
            {| Type_ := "SMTP";
               Server := dns.ASCII (admin.Host (admin.Submission config));
               Port := admin.Port (admin.Submission config);
               DirectoryPort := 0;
               ReferralPort := 0;
               LoginName := Request_EmailAddress req;
               SSL := submissionSSL;
               Encryption := submissionEncryption;
               SPA := "off";
               AuthRequired := "on" |} ] |} |}.

(** [autodiscoverHandle].  As in [autoconfHandle], [addrDom] is never
    assigned. *)
Definition autodiscoverHandle (r : Request) : Handler unit :=
  let addrDom := EmptyString in
  defer (metricAutodiscover_Inc addrDom) (
    when (negb (String.eqb (Method r) "POST")) (
      http_Error "405 - method not allowed - post required" StatusMethodNotAllowed ;;
      return_) ;;
    let* (req, err) := decodeBody r in
    when (negb (is_nil err)) (
      http_Error ("400 - bad request - parsing autodiscover request: " +:+ Error_text err)
        StatusMethodNotAllowed ;;
      return_) ;;
    log_Debug "autodiscover request" "email" (Request_EmailAddress req) ;;
    let '(addr, err) := smtp_ParseAddress (Request_EmailAddress req) in
    when (negb (is_nil err)) (
      http_Error "400 - bad request - invalid parameter emailaddress" StatusBadRequest ;;
      return_) ;;
    let '(config, err) := admin_ClientConfigDomain (smtp.Domain addr) in
    let '(imapSSL, imapEncryption, err) :=
      if is_nil err then tlsmode (admin.TLSMode_of (admin.IMAP config))
      else (EmptyString, EmptyString, err) in
    let '(submissionSSL, submissionEncryption, err) :=
      if is_nil err then tlsmode (admin.TLSMode_of (admin.Submission config))
      else (EmptyString, EmptyString, err) in
    when (negb (is_nil err)) (
      http_Error ("400 - bad request - " +:+ Error_text err) StatusBadRequest ;;
      return_) ;;
    HeaderSet "Content-Type" "application/xml; charset=utf-8" ;;
    let resp :=
      autodiscoverHandle_response req config imapSSL imapEncryption
        submissionSSL submissionEncryption in
    Write (Text xml_Header) ;;
    Write (AutodiscoverXML resp)).

(** ** mobileconfigHandle *)

(** Lines 398-401: the file name of the profile. *)
Definition mobileconfigHandle_filename (filename : string) : string :=
  let filename := strings.ReplaceAll filename "." "-" in
  let filename := strings.ReplaceAll filename "@" "-at-" in
  "email-account-" +:+ filename +:+ ".mobileconfig".

(** [mobileconfigHandle]. *)
Definition mobileconfigHandle (r : Request) : Handler unit :=
  when (negb (String.eqb (Method r) "GET")) (
    http_Error "405 - method not allowed - get required" StatusMethodNotAllowed ;;
    return_) ;;
  let addresses := FormValue r "addresses" in
  let fullName := FormValue r "name" in
  let buf : list Byte.byte := [] in
  let err := nil in
  let err :=
    if String.eqb addresses EmptyString then Errorf "missing/empty field addresses"
    else err in
  let l := strings.Split addresses "," in
  let '(buf, err) := if is_nil err then MobileConfig l fullName else (buf, err) in
  when (negb (is_nil err)) (
    http_Error ("400 - bad request - " +:+ Error_text err) StatusBadRequest ;;
    return_) ;;
  match l with
  | [] => panic
  | filename :: _ =>
      let filename := mobileconfigHandle_filename filename in
      HeaderSet "Content-Disposition"
        ("attachment; filename=" +:+ dquote +:+ filename +:+ dquote) ;;
      Write (Bytes buf)
  end.

End Handlers.

(** ** mobileconfigQRCodeHandle *)

Module url.

(** [url.URL]. *)
Record URL : Type := mkURL {
  Scheme : string;
  Opaque : string;
  User : option (string * option string);
  Host : string;
  Path : string;
  RawPath : string;
  OmitHost : bool;
  ForceQuery : bool;
  RawQuery : string;
  Fragment : string;
  RawFragment : string
}.

End url.

Definition StatusNotFound : Z := 404.

(** A request with the two further fields the QR code handler reads:
    [r.URL] and whether [r.TLS] is non-nil. *)
Record URLRequest : Type := mkURLRequest {
  request : Request;
  URL : url.URL;
  TLS : bool
}.

(** [http.NotFound(w, r)]. *)
Definition http_NotFound : Handler unit :=
  http_Error "404 page not found" StatusNotFound.

(** What the QR code handler takes from outside the repository: the
    [String] method of [url.URL], and [Encode], the level [L] and the [PNG]
    method of package [rsc.io/qr]. *)
Class QRImports : Type := mkQRImports {
  url_String : url.URL -> string;
  qr_Level : Type;
  qr_Code : Type;
  qr_L : qr_Level;
  qr_Encode : string -> qr_Level -> qr_Code * error;
  qr_PNG : qr_Code -> list Byte.byte
}.

Section QRCode.

Context `{QRImports}.

(** Lines 421-429: the URL that is encoded, scheme and host filled in and
    the suffix taken off the path. *)
Definition mobileconfigQRCodeHandle_url (r : URLRequest) : url.URL :=
  let u := URL r in
  let u :=
    if negb (TLS r) then
      {| url.Scheme := "http"; url.Opaque := url.Opaque u; url.User := url.User u;
         url.Host := url.Host u; url.Path := url.Path u; url.RawPath := url.RawPath u;
         url.OmitHost := url.OmitHost u; url.ForceQuery := url.ForceQuery u;
         url.RawQuery := url.RawQuery u; url.Fragment := url.Fragment u;
         url.RawFragment := url.RawFragment u |}
    else
      {| url.Scheme := "https"; url.Opaque := url.Opaque u; url.User := url.User u;
         url.Host := url.Host u; url.Path := url.Path u; url.RawPath := url.RawPath u;
         url.OmitHost := url.OmitHost u; url.ForceQuery := url.ForceQuery u;
         url.RawQuery := url.RawQuery u; url.Fragment := url.Fragment u;
         url.RawFragment := url.RawFragment u |} in
  let u :=
    {| url.Scheme := url.Scheme u; url.Opaque := url.Opaque u; url.User := url.User u;
       url.Host := Host (request r); url.Path := url.Path u;
       url.RawPath := url.RawPath u; url.OmitHost := url.OmitHost u;
       url.ForceQuery := url.ForceQuery u; url.RawQuery := url.RawQuery u;
       url.Fragment := url.Fragment u; url.RawFragment := url.RawFragment u |} in
  {| url.Scheme := url.Scheme u; url.Opaque := url.Opaque u; url.User := url.User u;
     url.Host := url.Host u;
     url.Path := strings.TrimSuffix (url.Path u) ".qrcode.png";
     url.RawPath := url.RawPath u; url.OmitHost := url.OmitHost u;
     url.ForceQuery := url.ForceQuery u; url.RawQuery := url.RawQuery u;
     url.Fragment := url.Fragment u; url.RawFragment := url.RawFragment u |}.

(** [mobileconfigQRCodeHandle]. *)
Definition mobileconfigQRCodeHandle (r : URLRequest) : Handler unit :=
  when (negb (String.eqb (Method (request r)) "GET")) (
    http_Error "405 - method not allowed - get required" StatusMethodNotAllowed ;;
    return_) ;;
  when (negb (strings.HasSuffix (url.Path (URL r)) ".qrcode.png")) (
    http_NotFound ;;
    return_) ;;
  let u := mobileconfigQRCodeHandle_url r in
  let '(code, err) := qr_Encode (url_String u) qr_L in
  when (negb (is_nil err)) (
    http_Error ("500 - internal server error - generating qr-code: " +:+ Error_text err)
      StatusInternalServerError ;;
    return_) ;;
  HeaderSet "Content-Type" "image/png" ;;
  Write (Bytes (qr_PNG code)).

End QRCode.

(** ** Worlds and observations *)

(** The world when a request arrives: a fresh response writer, an unread
    body, and whatever the counters and the log hold by then. *)
Definition request_start (ac ad : gmap string nat) (lg : list LogRecord) : World :=
  {| w := newResponseWriter; metricAutoconf := ac; metricAutodiscover := ad;
     logged := lg; bodyRead := false |}.

(** The body of an [http.Error] answer. *)
Definition error_body (msg : string) : list Chunk :=
  [Text (msg +:+ String (ascii_of_nat 10) EmptyString)].

(** ** The file name of the profile, as the interface describes it *)

(** One byte of an address in the file name: a dot becomes a dash, an at
    sign becomes [-at-]. *)
Definition sanitize_byte (c : ascii) : string :=
  if Ascii.eqb c "." then "-"
  else if Ascii.eqb c "@" then "-at-"
  else String c EmptyString.

Fixpoint sanitize (s : string) : string :=
  match s with
  | EmptyString => EmptyString
  | String c t => sanitize_byte c +:+ sanitize t
  end.

(** The first address of a comma-separated list: the text before the
    first comma. *)
Fixpoint first_address (addresses : string) : string :=
  match addresses with
  | EmptyString => EmptyString
  | String c t => if Ascii.eqb c "," then EmptyString else String c (first_address t)
  end.

(** ** The stripped host label, as the interface describes it *)

(** [s'] is [s] with the leading [label] removed when [s] starts with it,
    and [s] itself otherwise. *)
Definition without_label (label s s' : string) : Prop :=
  (forall rest, s = label +:+ rest -> s' = rest) /\
  ((forall rest, s <> label +:+ rest) -> s' = s).

(** ** Stand-ins for the imported packages, for the examples

    A small configuration store with two domains: [example.org], served on
    the alternate port too, and [legacy.example], whose IMAP endpoint
    carries a mode outside the three constants. *)
Module Test.

Definition mailhost : dns.Domain := dns.mkDomain "mail.example.org" "mail.example.org".

Definition config_example : admin.ClientConfig :=
  {| admin.IMAP := admin.mkProtocolConfig mailhost 993 0 true;
     admin.Submission := admin.mkProtocolConfig mailhost 587 1 true |}.

Definition config_legacy : admin.ClientConfig :=
  {| admin.IMAP := admin.mkProtocolConfig mailhost 143 7 false;
     admin.Submission := admin.mkProtocolConfig mailhost 25 2 false |}.

Definition zeroDomain : dns.Domain := dns.mkDomain EmptyString EmptyString.

Definition zeroConfig : admin.ClientConfig :=
  {| admin.IMAP := admin.mkProtocolConfig zeroDomain 0 0 false;
     admin.Submission := admin.mkProtocolConfig zeroDomain 0 0 false |}.

Definition sampleParseDomain (s : string) : dns.Domain * error :=
  if String.eqb s EmptyString then (zeroDomain, Errorf "empty domain")
  else (dns.mkDomain s s, nil).

Definition sampleParseAddress (s : string) : smtp.Address * error :=
  match strings.Split s "@" with
  | [l; d] =>
      if String.eqb d EmptyString then
        (smtp.mkAddress EmptyString zeroDomain, Errorf "empty domain")
      else (smtp.mkAddress l (dns.mkDomain d d), nil)
  | _ => (smtp.mkAddress EmptyString zeroDomain, Errorf "invalid address")
  end.

Definition sampleClientConfigDomain (d : dns.Domain) : admin.ClientConfig * error :=
  if String.eqb (dns.ASCII d) "example.org" then (config_example, nil)
  else if String.eqb (dns.ASCII d) "legacy.example" then (config_legacy, nil)
  else (zeroConfig, Errorf "domain not found").

Definition sampleMobileConfig (addresses : list string) (fullName : string)
  : list Byte.byte * error :=
  if forallb (fun a => is_nil (snd (sampleParseAddress a))) addresses
  then (list_byte_of_string ("profile of " +:+ fullName), nil)
  else ([], Errorf "parsing address").

Definition sampleDecode (body : string) : autodiscoverRequest * error :=
  if String.eqb body EmptyString then (mkAutodiscoverRequest EmptyString EmptyString, Errorf "EOF")
  else (mkAutodiscoverRequest body EmptyString, nil).

Definition imports : Imports :=
  {| TLSModeImmediate := 0;
     TLSModeSTARTTLS := 1;
     TLSModeNone := 2;
     format_TLSMode := fun m => pretty m;
     dns_ParseDomain := sampleParseDomain;
     smtp_ParseAddress := sampleParseAddress;
     admin_ClientConfigDomain := sampleClientConfigDomain;
     MobileConfig := sampleMobileConfig;
     xml_Decode := sampleDecode |}.

Definition get (host : string) (form : list (string * string)) : Request :=
  {| Method := "GET"; Host := host; Form := form; Body := EmptyString |}.

Definition post (host body : string) : Request :=
  {| Method := "POST"; Host := host; Form := []; Body := body |}.

Definition start : World := request_start ∅ ∅ [].

(** Requests used by the examples. *)
Definition autoconf_user : Request :=
  get "autoconfig.example.org" [("emailaddress", "user@example.org")].

Definition autoconf_host : Request := get "autoconfig.example.org" [].

Definition autoconf_legacy : Request :=
  get "autoconfig.example.org" [("emailaddress", "user@legacy.example")].

Definition autodiscover_user : Request :=
  post "autodiscover.example.org" "user@example.org".

Definition autodiscover_legacy : Request :=
  post "autodiscover.example.org" "user@legacy.example".

Definition autodiscover_empty : Request := post "autodiscover.example.org" EmptyString.

Definition mobileconfig_two : Request :=
  get "mail.example.org" [("addresses", "a.b@x.test,b@y.test"); ("name", "A")].

Definition user_domain : dns.Domain := dns.mkDomain "example.org" "example.org".

Definition legacy_domain : dns.Domain := dns.mkDomain "legacy.example" "legacy.example".

End Test.

(** ** Further observations *)

(** Whether the byte [c] occurs in [s]. *)
Fixpoint contains_byte (c : ascii) (s : string) : bool :=
  match s with
  | EmptyString => false
  | String x t => Ascii.eqb x c || contains_byte c t
  end.

(** The number of occurrences of the byte [c] in [s]. *)
Fixpoint count_byte (c : ascii) (s : string) : nat :=
  match s with
  | EmptyString => O
  | String x t => ((if Ascii.eqb x c then 1 else 0) + count_byte c t)%nat
  end.

(** The pieces of a list written one after the other with [sep] between
    them (what [strings.Join] returns). *)
Fixpoint join (sep : string) (l : list string) : string :=
  match l with
  | [] => EmptyString
  | [p] => p
  | p :: rest => p +:+ sep +:+ join sep rest
  end.

(** The world in which the next request is served: the counters and the
    log carry over, the response writer and the body reader are new. *)
Definition next_request (s : World) : World :=
  request_start (metricAutoconf s) (metricAutodiscover s) (logged s).

(** The requests of one handler served one after the other: each in the
    world the one before left, with a new response writer. *)
Definition serve_all (h : Request -> Handler unit) (rs : list Request) (s : World)
  : World :=
  fold_left (fun s r => serve (h r) (next_request s)) rs s.

(** The header of an [http.Error] answer on a fresh response writer. *)
Definition error_header : gmap string string :=
  <["X-Content-Type-Options" := "nosniff"]>
    (<["Content-Type" := "text/plain; charset=utf-8"]> (delete "Content-Length" ∅)).

(** Stand-ins for [url.URL.String] and package [qr], for the examples:
    the code of a text is the text itself, and texts over forty bytes do
    not fit. *)
Module TestQR.

Definition sampleString (u : url.URL) : string :=
  url.Scheme u +:+ "://" +:+ url.Host u +:+ url.Path u.

Definition sampleEncode (text : string) (level : unit) : string * error :=
  if (40 <? String.length text)%nat then (EmptyString, Errorf "text too long")
  else (text, nil).

Definition imports : QRImports :=
  {| url_String := sampleString;
     qr_Level := unit;
     qr_Code := string;
     qr_L := tt;
     qr_Encode := sampleEncode;
     qr_PNG := list_byte_of_string |}.

Definition profile_url (path : string) : url.URL :=
  url.mkURL EmptyString EmptyString None EmptyString path EmptyString false false
    EmptyString EmptyString EmptyString.

Definition qr_request : URLRequest :=
  {| request := Test.get "mail.example.org" [];
     URL := profile_url "/profile.qrcode.png";
     TLS := true |}.

Definition qr_long : URLRequest :=
  {| request := Test.get "mail.example.org" [];
     URL := profile_url "/a-rather-long-path-to-the-profile.qrcode.png";
     TLS := true |}.

Definition qr_plain : URLRequest :=
  {| request := Test.get "mail.example.org" [];
     URL := profile_url "/profile";
     TLS := false |}.

End TestQR.

(** * Properties *)

(** ** Facts about package strings *)

Section StringFacts.

Lemma prefix_append (p rest : string) : String.prefix p (p +:+ rest) = true.
Proof.
  induction p as [|a p IH]; simpl.
  - now destruct rest.
  - destruct (ascii_dec a a); [exact IH | congruence].
Qed.

Lemma prefix_split (p s : string) :
  String.prefix p s = true -> exists rest, s = p +:+ rest.
Proof.
  revert s; induction p as [|a p IH]; intros s Hp.
  - now exists s.
  - destruct s as [|b s]; simpl in Hp; [discriminate|].
    destruct (ascii_dec a b) as [->|]; [|discriminate].
    destruct (IH _ Hp) as [rest ->]. now exists rest.
Qed.

Lemma sliceFrom_append (p rest : string) :
  strings.sliceFrom (String.length p) (p +:+ rest) = rest.
Proof. induction p as [|a p IH]; simpl; [reflexivity | exact IH]. Qed.

Lemma TrimPrefix_present (p rest : string) :
  strings.TrimPrefix (p +:+ rest) p = rest.
Proof.
  unfold strings.TrimPrefix, strings.HasPrefix.
  rewrite prefix_append. apply sliceFrom_append.
Qed.

Lemma TrimPrefix_absent (p s : string) :
  (forall rest, s <> p +:+ rest) -> strings.TrimPrefix s p = s.
Proof.
  intros Hno. unfold strings.TrimPrefix, strings.HasPrefix.
  destruct (String.prefix p s) eqn:Hp; [|reflexivity].
  destruct (prefix_split _ _ Hp) as [rest ->]. now destruct (Hno rest).
Qed.

Lemma append_assoc (a b c : string) : (a +:+ b) +:+ c = a +:+ (b +:+ c).
Proof.
  induction a as [|x a IH]; [reflexivity|].
  change (String x ((a +:+ b) +:+ c) = String x (a +:+ (b +:+ c))).
  now rewrite IH.
Qed.

Lemma TrimPrefix_without_label (label s : string) :
  without_label label s (strings.TrimPrefix s label).
Proof.
  split.
  - intros rest ->. apply TrimPrefix_present.
  - apply TrimPrefix_absent.
Qed.

Lemma prefix_byte (a c : ascii) (t : string) :
  String.prefix (String a EmptyString) (String c t) = Ascii.eqb a c.
Proof.
  simpl. destruct (ascii_dec a c) as [->|Hne].
  - rewrite Ascii.eqb_refl. now destruct t.
  - symmetry. now apply Ascii.eqb_neq.
Qed.

(** One step of [ReplaceAll] for a one-byte pattern. *)
Lemma replaceFrom_byte (a c : ascii) (new t : string) :
  strings.replaceFrom (String a EmptyString) new 0 (String c t) =
  if Ascii.eqb a c then new +:+ strings.replaceFrom (String a EmptyString) new 0 t
  else String c (strings.replaceFrom (String a EmptyString) new 0 t).
Proof.
  change (strings.replaceFrom (String a EmptyString) new 0 (String c t))
    with (if String.prefix (String a EmptyString) (String c t)
          then new +:+ strings.replaceFrom (String a EmptyString) new 0 t
          else String c (strings.replaceFrom (String a EmptyString) new 0 t)).
  now rewrite prefix_byte.
Qed.

(** The two passes of the handler are the byte-wise rewriting. *)
Lemma ReplaceAll_sanitize (s : string) :
  strings.ReplaceAll (strings.ReplaceAll s "." "-") "@" "-at-" = sanitize s.
Proof.
  unfold strings.ReplaceAll.
  induction s as [|c t IH]; [reflexivity|].
  rewrite replaceFrom_byte. unfold sanitize; fold sanitize. unfold sanitize_byte.
  rewrite (Ascii.eqb_sym c "."%char).
  destruct (Ascii.eqb "." c) eqn:Hdot.
  - change ("-" +:+ ?x) with (String "-" x).
    rewrite replaceFrom_byte, IH. reflexivity.
  - rewrite replaceFrom_byte, IH. rewrite (Ascii.eqb_sym c "@"%char).
    now destruct (Ascii.eqb "@" c).
Qed.

(** One step of [Split] for a one-byte separator. *)
Lemma splitFrom_byte (a c : ascii) (t : string) :
  strings.splitFrom (String a EmptyString) 0 (String c t) =
  if Ascii.eqb a c then
    (EmptyString, fst (strings.splitFrom (String a EmptyString) 0 t)
                  :: snd (strings.splitFrom (String a EmptyString) 0 t))
  else
    (String c (fst (strings.splitFrom (String a EmptyString) 0 t)),
     snd (strings.splitFrom (String a EmptyString) 0 t)).
Proof.
  change (strings.splitFrom (String a EmptyString) 0 (String c t))
    with (if String.prefix (String a EmptyString) (String c t)
          then let '(p, ps) := strings.splitFrom (String a EmptyString) 0 t in
               (EmptyString, p :: ps)
          else let '(p, ps) := strings.splitFrom (String a EmptyString) 0 t in
               (String c p, ps)).
  rewrite prefix_byte.
  now destruct (strings.splitFrom (String a EmptyString) 0 t), (Ascii.eqb a c).
Qed.

(** The first piece of a comma-separated list is the text before the
    first comma; in particular [l[0]] exists. *)
Lemma Split_first (s : string) :
  exists rest, strings.Split s "," = first_address s :: rest.
Proof.
  unfold strings.Split.
  assert (E : fst (strings.splitFrom "," 0 s) = first_address s).
  { induction s as [|c t IH]; [reflexivity|].
    rewrite splitFrom_byte. simpl first_address.
    rewrite (Ascii.eqb_sym c ","%char).
    destruct (Ascii.eqb "," c); simpl; [reflexivity | now rewrite IH]. }
  destruct (strings.splitFrom "," 0 s) as [p ps]. simpl in E. subst p.
  now exists ps.
Qed.

End StringFacts.

(** ** The TLS vocabulary mappers *)

Section MapperFacts.

Context `{Imports}.

Lemma socketType_Immediate : socketType TLSModeImmediate = ("SSL", nil).
Proof. unfold socketType. now rewrite Z.eqb_refl. Qed.

Lemma tlsmode_Immediate : tlsmode TLSModeImmediate = ("on", "TLS", nil).
Proof. unfold tlsmode. now rewrite Z.eqb_refl. Qed.

Lemma socketType_unknown (m : admin.TLSMode) :
  unknown_mode m ->
  socketType m = (EmptyString, Errorf ("unknown tls mode " +:+ format_TLSMode m)).
Proof.
  intros (Hi & Hs & Hn). unfold socketType.
  apply Z.eqb_neq in Hi, Hs, Hn. now rewrite Hi, Hs, Hn.
Qed.

Lemma tlsmode_unknown (m : admin.TLSMode) :
  unknown_mode m ->
  tlsmode m = (EmptyString, EmptyString,
               Errorf ("unknown tls mode " +:+ format_TLSMode m)).
Proof.
  intros (Hi & Hs & Hn). unfold tlsmode.
  apply Z.eqb_neq in Hi, Hs, Hn. now rewrite Hi, Hs, Hn.
Qed.

(** A mode that is one of the three constants maps without error. *)
Lemma socketType_known (m : admin.TLSMode) :
  ~ unknown_mode m -> snd (socketType m) = nil.
Proof.
  intros Hk. unfold socketType.
  destruct (Z.eqb_spec m TLSModeImmediate); [reflexivity|].
  destruct (Z.eqb_spec m TLSModeSTARTTLS); [reflexivity|].
  destruct (Z.eqb_spec m TLSModeNone); [reflexivity|].
  exfalso. apply Hk. now repeat split.
Qed.

Lemma tlsmode_known (m : admin.TLSMode) :
  ~ unknown_mode m -> snd (tlsmode m) = nil.
Proof.
  intros Hk. unfold tlsmode.
  destruct (Z.eqb_spec m TLSModeImmediate); [reflexivity|].
  destruct (Z.eqb_spec m TLSModeSTARTTLS); [reflexivity|].
  destruct (Z.eqb_spec m TLSModeNone); [reflexivity|].
  exfalso. apply Hk. now repeat split.
Qed.

Lemma unknown_mode_dec (m : admin.TLSMode) : unknown_mode m \/ ~ unknown_mode m.
Proof.
  unfold unknown_mode.
  destruct (Z.eq_dec m TLSModeImmediate); [right; tauto|].
  destruct (Z.eq_dec m TLSModeSTARTTLS); [right; tauto|].
  destruct (Z.eq_dec m TLSModeNone); [right; tauto|].
  left; tauto.
Qed.

(** C1. Both mappers return the literal values of the table for the three
    modes (Thunderbird: SSL, STARTTLS, plain; Microsoft: on/TLS, on/empty,
    off/empty) with a nil error, and for every other mode a non-nil error
    with empty strings, never one of the table's values. *)
Theorem mapTLS_vocabulary :
  distinct_modes ->
  (socketType TLSModeImmediate = ("SSL", nil) /\
   socketType TLSModeSTARTTLS = ("STARTTLS", nil) /\
   socketType TLSModeNone = ("plain", nil)) /\
  (tlsmode TLSModeImmediate = ("on", "TLS", nil) /\
   tlsmode TLSModeSTARTTLS = ("on", EmptyString, nil) /\
   tlsmode TLSModeNone = ("off", EmptyString, nil)) /\
  (forall m, unknown_mode m ->
     exists msg,
       socketType m = (EmptyString, Some msg) /\
       tlsmode m = (EmptyString, EmptyString, Some msg)).
Proof.
  intros (His & Hin & Hsn).
  assert (Hsi : (TLSModeSTARTTLS =? TLSModeImmediate) = false)
    by (apply Z.eqb_neq; congruence).
  assert (Hni : (TLSModeNone =? TLSModeImmediate) = false)
    by (apply Z.eqb_neq; congruence).
  assert (Hns : (TLSModeNone =? TLSModeSTARTTLS) = false)
    by (apply Z.eqb_neq; congruence).
  unfold socketType, tlsmode.
  rewrite !Z.eqb_refl, Hsi, Hni, Hns.
  repeat split.
  intros m Hm. exists ("unknown tls mode " +:+ format_TLSMode m).
  split; [apply socketType_unknown | apply tlsmode_unknown]; exact Hm.
Qed.

End MapperFacts.

Lemma mapTLS_vocabulary_witness :
  @distinct_modes Test.imports /\
  @socketType Test.imports 1 = ("STARTTLS", nil) /\
  @tlsmode Test.imports 2 = ("off", EmptyString, nil).
Proof.
  assert (Hd : @distinct_modes Test.imports) by (repeat split; discriminate).
  split; [exact Hd|].
  split.
  - exact (proj1 (proj2 (proj1 (@mapTLS_vocabulary Test.imports Hd)))).
  - exact (proj2 (proj2 (proj1 (proj2 (@mapTLS_vocabulary Test.imports Hd))))).
Defined.

(** ** autoconfHandle *)

Ltac run_handler :=
  unfold serve, autoconfHandle, autodiscoverHandle, mobileconfigHandle,
    defer, bind, when, log_Debug, decodeBody, ret, return_.

Section AutoconfFacts.

Context `{Imports}.

(** The input stage changes nothing when it falls through, and its result
    does not depend on the world it runs in. *)
Lemma autoconfHandle_domain_pure (r : Request) (e : string) (s : World)
    (x : dns.Domain * string) :
  fst (autoconfHandle_domain r e s) = Next x ->
  forall s', autoconfHandle_domain r e s' = (Next x, s').
Proof.
  unfold autoconfHandle_domain.
  destruct (String.eqb e EmptyString).
  - destruct (dns_ParseDomain (Host r)) as [d [m|]]; cbn; intros E s'.
    + discriminate.
    + now inversion E.
  - destruct (smtp_ParseAddress e) as [a [m|]]; cbn; intros E s'.
    + discriminate.
    + now inversion E.
Qed.

(** The whole run of the handler for a request whose input is accepted and
    whose configuration resolves with two mapped modes. *)
Lemma autoconfHandle_resolved (r : Request) (ac ad : gmap string nat)
    (lg : list LogRecord) (domain : dns.Domain) (identity : string)
    (config : admin.ClientConfig) (imapTLS submissionTLS : string) :
  fst (autoconfHandle_domain r (FormValue r "emailaddress") (request_start ac ad lg))
    = Next (domain, identity) ->
  admin_ClientConfigDomain domain = (config, nil) ->
  socketType (admin.TLSMode_of (admin.IMAP config)) = (imapTLS, nil) ->
  socketType (admin.TLSMode_of (admin.Submission config)) = (submissionTLS, nil) ->
  serve (autoconfHandle r) (request_start ac ad lg) =
  {| w := {| header := {[ "Content-Type" := "application/xml; charset=utf-8" ]};
             status := Some StatusOK;
             body := [Text xml_Header;
                      AutoconfigXML (autoconfHandle_response domain identity config
                                       imapTLS submissionTLS)] |};
     metricAutoconf := CounterInc EmptyString ac;
     metricAutodiscover := ad;
     logged := (lg ++ [mkLogRecord "autoconfig request" "email"
                         (FormValue r "emailaddress")])%list;
     bodyRead := false |}.
Proof.
  intros Hin Hcfg Himap Hsub. run_handler.
  rewrite (autoconfHandle_domain_pure _ _ _ _ Hin).
  rewrite Hcfg. cbn [is_nil nil]. rewrite Himap. cbn [is_nil nil]. rewrite Hsub.
  reflexivity.
Qed.

(** The run of the handler when the configuration resolves and a mode is
    outside the three constants: the answer of line 112. *)
Lemma autoconfHandle_unknown_mode (r : Request) (ac ad : gmap string nat)
    (lg : list LogRecord) (domain : dns.Domain) (identity : string)
    (config : admin.ClientConfig) :
  fst (autoconfHandle_domain r (FormValue r "emailaddress") (request_start ac ad lg))
    = Next (domain, identity) ->
  admin_ClientConfigDomain domain = (config, nil) ->
  unknown_mode (admin.TLSMode_of (admin.IMAP config)) \/
  unknown_mode (admin.TLSMode_of (admin.Submission config)) ->
  exists m,
    unknown_mode m /\
    status (w (serve (autoconfHandle r) (request_start ac ad lg))) = Some StatusBadRequest /\
    body (w (serve (autoconfHandle r) (request_start ac ad lg))) =
      error_body ("400 - bad request - unknown tls mode " +:+ format_TLSMode m).
Proof.
  intros Hin Hcfg Hunk. run_handler.
  rewrite (autoconfHandle_domain_pure _ _ _ _ Hin), Hcfg. cbn [is_nil nil].
  destruct (unknown_mode_dec (admin.TLSMode_of (admin.IMAP config))) as [Hi|Hi].
  - exists (admin.TLSMode_of (admin.IMAP config)). split; [exact Hi|].
    rewrite (socketType_unknown _ Hi). split; reflexivity.
  - destruct Hunk as [Hu|Hs]; [contradiction|].
    exists (admin.TLSMode_of (admin.Submission config)). split; [exact Hs|].
    pose proof (socketType_known _ Hi) as Hk.
    destruct (socketType (admin.TLSMode_of (admin.IMAP config))) as [t e].
    simpl in Hk. subst e. cbn [is_nil nil].
    rewrite (socketType_unknown _ Hs). split; reflexivity.
Qed.

(** The lists of a document: the primary entry, then the entry on port 443
    when the endpoint is served there. *)
Lemma autoconfHandle_response_incoming (domain : dns.Domain) (identity : string)
    (config : admin.ClientConfig) (imapTLS submissionTLS : string) :
  EmailProvider_IncomingServers
    (autoconfHandle_response domain identity config imapTLS submissionTLS) =
  mkIncomingServer "imap" (dns.ASCII (admin.Host (admin.IMAP config)))
    (admin.Port (admin.IMAP config)) imapTLS identity "password-encrypted"
  :: (if admin.EnabledOnHTTPS (admin.IMAP config)
      then [mkIncomingServer "imap" (dns.ASCII (admin.Host (admin.IMAP config)))
              443 "SSL" identity "password-encrypted"]
      else []).
Proof.
  unfold autoconfHandle_response. rewrite socketType_Immediate.
  now destruct (admin.EnabledOnHTTPS (admin.IMAP config)).
Qed.

Lemma autoconfHandle_response_outgoing (domain : dns.Domain) (identity : string)
    (config : admin.ClientConfig) (imapTLS submissionTLS : string) :
  EmailProvider_OutgoingServers
    (autoconfHandle_response domain identity config imapTLS submissionTLS) =
  mkOutgoingServer "smtp" (dns.ASCII (admin.Host (admin.Submission config)))
    (admin.Port (admin.Submission config)) submissionTLS identity "password-encrypted"
  :: (if admin.EnabledOnHTTPS (admin.Submission config)
      then [mkOutgoingServer "smtp" (dns.ASCII (admin.Host (admin.Submission config)))
              443 "SSL" identity "password-encrypted"]
      else []).
Proof.
  unfold autoconfHandle_response. rewrite socketType_Immediate.
  now destruct (admin.EnabledOnHTTPS (admin.Submission config)).
Qed.

(** What the handler can have written when it is left: an error text, or
    the XML header and one document built by [autoconfHandle_response]. *)
Lemma autoconfHandle_body (r : Request) (ac ad : gmap string nat)
    (lg : list LogRecord) :
  (exists msg,
     body (w (serve (autoconfHandle r) (request_start ac ad lg))) = error_body msg) \/
  (exists domain identity config imapTLS submissionTLS,
     body (w (serve (autoconfHandle r) (request_start ac ad lg))) =
       [Text xml_Header;
        AutoconfigXML (autoconfHandle_response domain identity config
                         imapTLS submissionTLS)]).
Proof.
  run_handler. unfold autoconfHandle_domain.
  destruct (String.eqb (FormValue r "emailaddress") EmptyString).
  - destruct (dns_ParseDomain (Host r)) as [d [m|]]; cbn [is_nil negb].
    + left. eexists. reflexivity.
    + cbn [ret bind].
      destruct (admin_ClientConfigDomain _) as [config [m|]]; cbn [is_nil negb].
      * left. eexists. reflexivity.
      * destruct (socketType (admin.TLSMode_of (admin.IMAP config))) as [it [m|]];
          cbn [is_nil negb]; [left; eexists; reflexivity|].
        destruct (socketType (admin.TLSMode_of (admin.Submission config))) as [st [m|]];
          cbn [is_nil negb]; [left; eexists; reflexivity|].
        right. do 5 eexists. reflexivity.
  - destruct (smtp_ParseAddress _) as [a [m|]]; cbn [is_nil negb].
    + left. eexists. reflexivity.
    + cbn [ret bind].
      destruct (admin_ClientConfigDomain _) as [config [m|]]; cbn [is_nil negb].
      * left. eexists. reflexivity.
      * destruct (socketType (admin.TLSMode_of (admin.IMAP config))) as [it [m|]];
          cbn [is_nil negb]; [left; eexists; reflexivity|].
        destruct (socketType (admin.TLSMode_of (admin.Submission config))) as [st [m|]];
          cbn [is_nil negb]; [left; eexists; reflexivity|].
        right. do 5 eexists. reflexivity.
Qed.

End AutoconfFacts.

Section AutoconfClaims.

Context `{Imports}.

(** C2. When the input of an autoconfig request is accepted and its
    configuration resolves, the document's outgoing-server list is the
    primary Submission entry followed, exactly when the Submission endpoint
    is enabled on the alternate port, by one entry with the same host, port
    443 and socketType SSL; the incoming-server list is built the same way
    from the IMAP endpoint. *)
Theorem autoconf_server_lists (r : Request) (ac ad : gmap string nat)
    (lg : list LogRecord) (domain : dns.Domain) (identity : string)
    (config : admin.ClientConfig) (imapTLS submissionTLS : string) :
  fst (autoconfHandle_domain r (FormValue r "emailaddress") (request_start ac ad lg))
    = Next (domain, identity) ->
  admin_ClientConfigDomain domain = (config, nil) ->
  socketType (admin.TLSMode_of (admin.IMAP config)) = (imapTLS, nil) ->
  socketType (admin.TLSMode_of (admin.Submission config)) = (submissionTLS, nil) ->
  exists resp,
    status (w (serve (autoconfHandle r) (request_start ac ad lg))) = Some StatusOK /\
    body (w (serve (autoconfHandle r) (request_start ac ad lg))) =
      [Text xml_Header; AutoconfigXML resp] /\
    EmailProvider_OutgoingServers resp =
      mkOutgoingServer "smtp" (dns.ASCII (admin.Host (admin.Submission config)))
        (admin.Port (admin.Submission config)) submissionTLS identity
        "password-encrypted"
      :: (if admin.EnabledOnHTTPS (admin.Submission config)
          then [mkOutgoingServer "smtp"
                  (dns.ASCII (admin.Host (admin.Submission config)))
                  443 "SSL" identity "password-encrypted"]
          else []) /\
    EmailProvider_IncomingServers resp =
      mkIncomingServer "imap" (dns.ASCII (admin.Host (admin.IMAP config)))
        (admin.Port (admin.IMAP config)) imapTLS identity "password-encrypted"
      :: (if admin.EnabledOnHTTPS (admin.IMAP config)
          then [mkIncomingServer "imap"
                  (dns.ASCII (admin.Host (admin.IMAP config)))
                  443 "SSL" identity "password-encrypted"]
          else []).
Proof.
  intros Hin Hcfg Himap Hsub.
  exists (autoconfHandle_response domain identity config imapTLS submissionTLS).
  rewrite (autoconfHandle_resolved _ _ _ _ _ _ _ _ _ Hin Hcfg Himap Hsub).
  repeat split.
  - apply autoconfHandle_response_outgoing.
  - apply autoconfHandle_response_incoming.
Qed.

(** C4. With an empty emailaddress parameter and a request host that
    parses, the input stage yields the host's domain with a leading
    autoconfig. label removed from its ASCII and from its Unicode form
    (each unchanged when it does not start with the label) and the
    placeholder identity; with a non-empty emailaddress that parses it
    yields the address's domain and the address itself; a host or an
    address that does not parse is answered with status 400. *)
Theorem autoconf_normalizer (r : Request) (ac ad : gmap string nat)
    (lg : list LogRecord) :
  (FormValue r "emailaddress" = EmptyString ->
   forall d, dns_ParseDomain (Host r) = (d, nil) ->
   exists d',
     (forall s, autoconfHandle_domain r (FormValue r "emailaddress") s
                = (Next (d', "%EMAILADDRESS%"), s)) /\
     without_label "autoconfig." (dns.ASCII d) (dns.ASCII d') /\
     without_label "autoconfig." (dns.Unicode d) (dns.Unicode d')) /\
  (FormValue r "emailaddress" <> EmptyString ->
   forall a, smtp_ParseAddress (FormValue r "emailaddress") = (a, nil) ->
   forall s, autoconfHandle_domain r (FormValue r "emailaddress") s
             = (Next (smtp.Domain a, FormValue r "emailaddress"), s)) /\
  (FormValue r "emailaddress" = EmptyString ->
   forall d m, dns_ParseDomain (Host r) = (d, Some m) ->
   status (w (serve (autoconfHandle r) (request_start ac ad lg))) = Some StatusBadRequest /\
   body (w (serve (autoconfHandle r) (request_start ac ad lg))) =
     error_body ("400 - bad request - invalid domain: " +:+ Host r)) /\
  (FormValue r "emailaddress" <> EmptyString ->
   forall a m, smtp_ParseAddress (FormValue r "emailaddress") = (a, Some m) ->
   status (w (serve (autoconfHandle r) (request_start ac ad lg))) = Some StatusBadRequest /\
   body (w (serve (autoconfHandle r) (request_start ac ad lg))) =
     error_body "400 - bad request - invalid parameter emailaddress").
Proof.
  split; [|split; [|split]].
  - intros He d Hd.
    exists (dns.mkDomain (strings.TrimPrefix (dns.ASCII d) "autoconfig.")
              (strings.TrimPrefix (dns.Unicode d) "autoconfig.")).
    split; [|split; apply TrimPrefix_without_label].
    intros s. unfold autoconfHandle_domain. rewrite He, Hd. reflexivity.
  - intros He a Ha s. unfold autoconfHandle_domain.
    apply String.eqb_neq in He. rewrite He, Ha. reflexivity.
  - intros He d m Hd. split; run_handler; unfold autoconfHandle_domain;
      rewrite He, Hd; reflexivity.
  - intros He a m Ha. apply String.eqb_neq in He.
    split; run_handler; unfold autoconfHandle_domain; rewrite He, Ha; reflexivity.
Qed.

(** C10. The mapper applied to the Immediate mode returns SSL with a nil
    error, so the error dropped at lines 137 and 159 is nil; in every
    document the handler writes, each entry after the primary one (the
    entries for port 443) has socketType SSL. *)
Theorem alternate_entries_SSL (r : Request) (ac ad : gmap string nat)
    (lg : list LogRecord) (resp : autoconfigResponse) :
  In (AutoconfigXML resp)
     (body (w (serve (autoconfHandle r) (request_start ac ad lg)))) ->
  socketType TLSModeImmediate = ("SSL", nil) /\
  (forall e, In e (tl (EmailProvider_IncomingServers resp)) ->
     in_Port e = 443 /\ in_SocketType e = "SSL") /\
  (forall e, In e (tl (EmailProvider_OutgoingServers resp)) ->
     out_Port e = 443 /\ out_SocketType e = "SSL").
Proof.
  intros Hdoc. split; [apply socketType_Immediate|].
  destruct (autoconfHandle_body r ac ad lg)
    as [[msg E]|(domain & identity & config & it & st & E)];
    rewrite E in Hdoc.
  - destruct Hdoc as [Hd|[]]. discriminate.
  - destruct Hdoc as [Hd|[Hd|[]]]; [discriminate|].
    injection Hd as <-.
    rewrite autoconfHandle_response_incoming, autoconfHandle_response_outgoing.
    split; intros e; simpl.
    + destruct (admin.EnabledOnHTTPS (admin.IMAP config)); [|intros []].
      intros [<-|[]]. now split.
    + destruct (admin.EnabledOnHTTPS (admin.Submission config)); [|intros []].
      intros [<-|[]]. now split.
Qed.

End AutoconfClaims.

Lemma autoconf_server_lists_witness :
  exists resp,
    body (w (serve (@autoconfHandle Test.imports Test.autoconf_user) Test.start)) =
      [Text xml_Header; AutoconfigXML resp] /\
    map out_Port (EmailProvider_OutgoingServers resp) = [587; 443] /\
    map in_SocketType (EmailProvider_IncomingServers resp) = ["SSL"; "SSL"].
Proof.
  destruct (@autoconf_server_lists Test.imports Test.autoconf_user ∅ ∅ []
              Test.user_domain "user@example.org" Test.config_example
              "SSL" "STARTTLS" eq_refl eq_refl eq_refl eq_refl)
    as (resp & _ & Hbody & Hout & Hin).
  exists resp. split; [exact Hbody|].
  rewrite Hout, Hin. split; reflexivity.
Defined.

Lemma autoconf_normalizer_witness :
  exists d',
    (forall s, @autoconfHandle_domain Test.imports Test.autoconf_host EmptyString s
               = (Next (d', "%EMAILADDRESS%"), s)) /\
    dns.ASCII d' = "example.org".
Proof.
  destruct (proj1 (@autoconf_normalizer Test.imports Test.autoconf_host ∅ ∅ [])
              eq_refl (dns.mkDomain "autoconfig.example.org" "autoconfig.example.org")
              eq_refl)
    as (d' & Hrun & Hascii & _).
  exists d'. split; [exact Hrun|].
  exact (proj1 Hascii "example.org" eq_refl).
Defined.

Lemma alternate_entries_SSL_witness :
  In (AutoconfigXML
        (@autoconfHandle_response Test.imports Test.user_domain
           "user@example.org" Test.config_example "SSL" "STARTTLS"))
     (body (w (serve (@autoconfHandle Test.imports Test.autoconf_user) Test.start))) /\
  in_SocketType
    (mkIncomingServer "imap" "mail.example.org" 443 "SSL" "user@example.org"
       "password-encrypted") = "SSL".
Proof.
  assert (Hdoc :
    In (AutoconfigXML
          (@autoconfHandle_response Test.imports Test.user_domain
             "user@example.org" Test.config_example "SSL" "STARTTLS"))
       (body (w (serve (@autoconfHandle Test.imports Test.autoconf_user) Test.start)))).
  { right. left. reflexivity. }
  split; [exact Hdoc|].
  refine (proj2 (proj1 (proj2 (@alternate_entries_SSL Test.imports Test.autoconf_user
                                 ∅ ∅ [] _ Hdoc)) _ _)).
  left. reflexivity.
Defined.

(** ** autodiscoverHandle *)

Section AutodiscoverFacts.

Context `{Imports}.

Lemma method_is (r : Request) (m : string) :
  Method r = m -> String.eqb (Method r) m = true.
Proof. intros ->. apply String.eqb_refl. Qed.

Lemma method_is_not (r : Request) (m : string) :
  Method r <> m -> String.eqb (Method r) m = false.
Proof. apply String.eqb_neq. Qed.

(** The whole run of the handler for a POST whose body decodes, whose
    address parses and whose configuration resolves with two mapped modes. *)
Lemma autodiscoverHandle_resolved (r : Request) (ac ad : gmap string nat)
    (lg : list LogRecord) (req : autodiscoverRequest) (addr : smtp.Address)
    (config : admin.ClientConfig)
    (imapSSL imapEncryption submissionSSL submissionEncryption : string) :
  Method r = "POST" ->
  xml_Decode (Body r) = (req, nil) ->
  smtp_ParseAddress (Request_EmailAddress req) = (addr, nil) ->
  admin_ClientConfigDomain (smtp.Domain addr) = (config, nil) ->
  tlsmode (admin.TLSMode_of (admin.IMAP config)) = (imapSSL, imapEncryption, nil) ->
  tlsmode (admin.TLSMode_of (admin.Submission config))
    = (submissionSSL, submissionEncryption, nil) ->
  serve (autodiscoverHandle r) (request_start ac ad lg) =
  {| w := {| header := {[ "Content-Type" := "application/xml; charset=utf-8" ]};
             status := Some StatusOK;
             body := [Text xml_Header;
                      AutodiscoverXML
                        (autodiscoverHandle_response req config imapSSL imapEncryption
                           submissionSSL submissionEncryption)] |};
     metricAutoconf := ac;
     metricAutodiscover := CounterInc EmptyString ad;
     logged := (lg ++ [mkLogRecord "autodiscover request" "email"
                         (Request_EmailAddress req)])%list;
     bodyRead := true |}.
Proof.
  intros Hm Hdec Haddr Hcfg Himap Hsub. run_handler.
  rewrite (method_is _ _ Hm), Hdec. cbn [negb is_nil nil].
  rewrite Haddr. cbn [negb is_nil nil].
  rewrite Hcfg. cbn [negb is_nil nil].
  rewrite Himap. cbn [negb is_nil nil]. rewrite Hsub.
  reflexivity.
Qed.

(** The answer of line 243 when a mode is outside the three constants. *)
Lemma autodiscoverHandle_unknown_mode (r : Request) (ac ad : gmap string nat)
    (lg : list LogRecord) (req : autodiscoverRequest) (addr : smtp.Address)
    (config : admin.ClientConfig) :
  Method r = "POST" ->
  xml_Decode (Body r) = (req, nil) ->
  smtp_ParseAddress (Request_EmailAddress req) = (addr, nil) ->
  admin_ClientConfigDomain (smtp.Domain addr) = (config, nil) ->
  unknown_mode (admin.TLSMode_of (admin.IMAP config)) \/
  unknown_mode (admin.TLSMode_of (admin.Submission config)) ->
  exists m,
    unknown_mode m /\
    status (w (serve (autodiscoverHandle r) (request_start ac ad lg)))
      = Some StatusBadRequest /\
    body (w (serve (autodiscoverHandle r) (request_start ac ad lg))) =
      error_body ("400 - bad request - unknown tls mode " +:+ format_TLSMode m).
Proof.
  intros Hm Hdec Haddr Hcfg Hunk. run_handler.
  rewrite (method_is _ _ Hm), Hdec. cbn [negb is_nil nil].
  rewrite Haddr. cbn [negb is_nil nil].
  rewrite Hcfg. cbn [negb is_nil nil].
  destruct (unknown_mode_dec (admin.TLSMode_of (admin.IMAP config))) as [Hi|Hi].
  - exists (admin.TLSMode_of (admin.IMAP config)). split; [exact Hi|].
    rewrite (tlsmode_unknown _ Hi). split; reflexivity.
  - destruct Hunk as [Hu|Hs]; [contradiction|].
    exists (admin.TLSMode_of (admin.Submission config)). split; [exact Hs|].
    pose proof (tlsmode_known _ Hi) as Hk.
    destruct (tlsmode (admin.TLSMode_of (admin.IMAP config))) as [[t1 t2] e].
    simpl in Hk. subst e. cbn [is_nil nil].
    rewrite (tlsmode_unknown _ Hs). split; reflexivity.
Qed.

(** A POST whose body does not decode is answered by line 207: the text
    announces 400, the status line is [http.StatusMethodNotAllowed]. *)
Lemma autodiscoverHandle_bad_body (r : Request) (ac ad : gmap string nat)
    (lg : list LogRecord) (req : autodiscoverRequest) (m : string) :
  Method r = "POST" ->
  xml_Decode (Body r) = (req, Some m) ->
  status (w (serve (autodiscoverHandle r) (request_start ac ad lg)))
    = Some StatusMethodNotAllowed /\
  body (w (serve (autodiscoverHandle r) (request_start ac ad lg))) =
    error_body ("400 - bad request - parsing autodiscover request: " +:+ m).
Proof.
  intros Hm Hdec. run_handler. rewrite (method_is _ _ Hm), Hdec.
  split; reflexivity.
Qed.

(** A POST whose address does not parse is answered with status 400. *)
Lemma autodiscoverHandle_bad_address (r : Request) (ac ad : gmap string nat)
    (lg : list LogRecord) (req : autodiscoverRequest) (addr : smtp.Address)
    (m : string) :
  Method r = "POST" ->
  xml_Decode (Body r) = (req, nil) ->
  smtp_ParseAddress (Request_EmailAddress req) = (addr, Some m) ->
  status (w (serve (autodiscoverHandle r) (request_start ac ad lg)))
    = Some StatusBadRequest /\
  body (w (serve (autodiscoverHandle r) (request_start ac ad lg))) =
    error_body "400 - bad request - invalid parameter emailaddress".
Proof.
  intros Hm Hdec Haddr. run_handler. rewrite (method_is _ _ Hm), Hdec.
  cbn [negb is_nil nil]. rewrite Haddr. split; reflexivity.
Qed.

(** The counters after a request, whatever its outcome: the handler adds
    one to its own vector at the empty label and leaves the other vector. *)
Lemma autoconfHandle_counters (r : Request) (s : World) :
  metricAutoconf (serve (autoconfHandle r) s)
    = CounterInc EmptyString (metricAutoconf s) /\
  metricAutodiscover (serve (autoconfHandle r) s) = metricAutodiscover s.
Proof.
  run_handler. unfold autoconfHandle_domain.
  destruct (String.eqb (FormValue r "emailaddress") EmptyString).
  - destruct (dns_ParseDomain (Host r)) as [d [m|]]; cbn [is_nil negb];
      [split; reflexivity|].
    cbn [ret bind].
    destruct (admin_ClientConfigDomain _) as [config [m|]]; cbn [is_nil negb];
      [split; reflexivity|].
    destruct (socketType (admin.TLSMode_of (admin.IMAP config))) as [it [m|]];
      cbn [is_nil negb]; [split; reflexivity|].
    destruct (socketType (admin.TLSMode_of (admin.Submission config))) as [st [m|]];
      split; reflexivity.
  - destruct (smtp_ParseAddress _) as [a [m|]]; cbn [is_nil negb];
      [split; reflexivity|].
    cbn [ret bind].
    destruct (admin_ClientConfigDomain _) as [config [m|]]; cbn [is_nil negb];
      [split; reflexivity|].
    destruct (socketType (admin.TLSMode_of (admin.IMAP config))) as [it [m|]];
      cbn [is_nil negb]; [split; reflexivity|].
    destruct (socketType (admin.TLSMode_of (admin.Submission config))) as [st [m|]];
      split; reflexivity.
Qed.

Lemma autodiscoverHandle_counters (r : Request) (s : World) :
  metricAutodiscover (serve (autodiscoverHandle r) s)
    = CounterInc EmptyString (metricAutodiscover s) /\
  metricAutoconf (serve (autodiscoverHandle r) s) = metricAutoconf s.
Proof.
  run_handler.
  destruct (String.eqb (Method r) "POST"); cbn [negb]; [|split; reflexivity].
  destruct (xml_Decode (Body r)) as [req [m|]]; cbn [is_nil negb];
    [split; reflexivity|].
  destruct (smtp_ParseAddress _) as [a [m|]]; cbn [is_nil negb];
    [split; reflexivity|].
  destruct (admin_ClientConfigDomain _) as [config [m|]]; cbn [is_nil negb];
    [split; reflexivity|].
  destruct (tlsmode (admin.TLSMode_of (admin.IMAP config))) as [[i1 i2] [m|]];
    cbn [is_nil negb]; [split; reflexivity|].
  destruct (tlsmode (admin.TLSMode_of (admin.Submission config))) as [[s1 s2] [m|]];
    split; reflexivity.
Qed.

End AutodiscoverFacts.

Section AutodiscoverClaims.

Context `{Imports}.

(** C3. A successful Autodiscover request (a POST whose body decodes,
    whose address parses and whose configuration resolves with two mapped
    modes) is answered with an Account of type email and action settings
    holding exactly two Protocol entries, IMAP then SMTP, each with the
    Microsoft ssl and encryption values of its endpoint, the requested
    address as LoginName, SPA off and AuthRequired on; the alternate-port
    flags of the endpoints play no part. *)
Theorem autodiscover_account (r : Request) (ac ad : gmap string nat)
    (lg : list LogRecord) (req : autodiscoverRequest) (addr : smtp.Address)
    (config : admin.ClientConfig)
    (imapSSL imapEncryption submissionSSL submissionEncryption : string) :
  Method r = "POST" ->
  xml_Decode (Body r) = (req, nil) ->
  smtp_ParseAddress (Request_EmailAddress req) = (addr, nil) ->
  admin_ClientConfigDomain (smtp.Domain addr) = (config, nil) ->
  tlsmode (admin.TLSMode_of (admin.IMAP config)) = (imapSSL, imapEncryption, nil) ->
  tlsmode (admin.TLSMode_of (admin.Submission config))
    = (submissionSSL, submissionEncryption, nil) ->
  exists resp,
    status (w (serve (autodiscoverHandle r) (request_start ac ad lg))) = Some StatusOK /\
    body (w (serve (autodiscoverHandle r) (request_start ac ad lg))) =
      [Text xml_Header; AutodiscoverXML resp] /\
    Response_Account resp =
      {| AccountType := "email";
         Action := "settings";
         Protocol := [
           {| Type_ := "IMAP";
              Server := dns.ASCII (admin.Host (admin.IMAP config));
              Port := admin.Port (admin.IMAP config);
              DirectoryPort := 0;
              ReferralPort := 0;
              LoginName := Request_EmailAddress req;
              SSL := imapSSL;
              Encryption := imapEncryption;
              SPA := "off";
              AuthRequired := "on" |};
           {| Type_ := "SMTP";
              Server := dns.ASCII (admin.Host (admin.Submission config));
              Port := admin.Port (admin.Submission config);
              DirectoryPort := 0;
              ReferralPort := 0;
              LoginName := Request_EmailAddress req;
              SSL := submissionSSL;
              Encryption := submissionEncryption;
              SPA := "off";
              AuthRequired := "on" |} ] |}.
Proof.
  intros Hm Hdec Haddr Hcfg Himap Hsub.
  exists (autodiscoverHandle_response req config imapSSL imapEncryption
            submissionSSL submissionEncryption).
  rewrite (autodiscoverHandle_resolved _ _ _ _ _ _ _ _ _ _ _
             Hm Hdec Haddr Hcfg Himap Hsub).
  repeat split.
Qed.

(** C5, as the code has it. When the configuration of a request resolves
    and the mode of its IMAP or of its Submission endpoint is outside the
    three constants, both handlers answer with status 400 and the text
    400 - bad request - unknown tls mode, followed by the mode, and write
    no document. *)
Theorem unknown_mode_answer_400 (ac ad : gmap string nat) (lg : list LogRecord)
    (config : admin.ClientConfig) :
  unknown_mode (admin.TLSMode_of (admin.IMAP config)) \/
  unknown_mode (admin.TLSMode_of (admin.Submission config)) ->
  (forall r domain identity,
     fst (autoconfHandle_domain r (FormValue r "emailaddress") (request_start ac ad lg))
       = Next (domain, identity) ->
     admin_ClientConfigDomain domain = (config, nil) ->
     exists m,
       unknown_mode m /\
       status (w (serve (autoconfHandle r) (request_start ac ad lg)))
         = Some StatusBadRequest /\
       body (w (serve (autoconfHandle r) (request_start ac ad lg))) =
         error_body ("400 - bad request - unknown tls mode " +:+ format_TLSMode m)) /\
  (forall r req addr,
     Method r = "POST" ->
     xml_Decode (Body r) = (req, nil) ->
     smtp_ParseAddress (Request_EmailAddress req) = (addr, nil) ->
     admin_ClientConfigDomain (smtp.Domain addr) = (config, nil) ->
     exists m,
       unknown_mode m /\
       status (w (serve (autodiscoverHandle r) (request_start ac ad lg)))
         = Some StatusBadRequest /\
       body (w (serve (autodiscoverHandle r) (request_start ac ad lg))) =
         error_body ("400 - bad request - unknown tls mode " +:+ format_TLSMode m)).
Proof.
  intros Hunk. split.
  - intros r domain identity Hin Hcfg.
    exact (autoconfHandle_unknown_mode r ac ad lg domain identity config Hin Hcfg Hunk).
  - intros r req addr Hm Hdec Haddr Hcfg.
    exact (autodiscoverHandle_unknown_mode r ac ad lg req addr config
             Hm Hdec Haddr Hcfg Hunk).
Qed.

(** C7. A request to the Autodiscover handler whose method is not POST is
    answered with status 405; the request body is not read, nothing is
    logged, and the outcome is the same whatever the body holds. *)
Theorem autodiscover_requires_post (r : Request) (ac ad : gmap string nat)
    (lg : list LogRecord) :
  Method r <> "POST" ->
  status (w (serve (autodiscoverHandle r) (request_start ac ad lg)))
    = Some StatusMethodNotAllowed /\
  body (w (serve (autodiscoverHandle r) (request_start ac ad lg))) =
    error_body "405 - method not allowed - post required" /\
  bodyRead (serve (autodiscoverHandle r) (request_start ac ad lg)) = false /\
  logged (serve (autodiscoverHandle r) (request_start ac ad lg)) = lg /\
  forall b,
    serve (autodiscoverHandle
             {| Method := Method r; Host := Host r; Form := Form r; Body := b |})
          (request_start ac ad lg)
    = serve (autodiscoverHandle r) (request_start ac ad lg).
Proof.
  intros Hm. apply method_is_not in Hm. run_handler.
  cbn [Method]. rewrite Hm. repeat split.
Qed.

End AutodiscoverClaims.

Lemma autodiscover_account_witness :
  exists resp,
    body (w (serve (@autodiscoverHandle Test.imports Test.autodiscover_user) Test.start)) =
      [Text xml_Header; AutodiscoverXML resp] /\
    map Type_ (Protocol (Response_Account resp)) = ["IMAP"; "SMTP"] /\
    map SSL (Protocol (Response_Account resp)) = ["on"; "on"] /\
    map Encryption (Protocol (Response_Account resp)) = ["TLS"; EmptyString].
Proof.
  destruct (@autodiscover_account Test.imports Test.autodiscover_user ∅ ∅ []
              (mkAutodiscoverRequest "user@example.org" EmptyString)
              (smtp.mkAddress "user" Test.user_domain) Test.config_example
              "on" "TLS" "on" EmptyString
              eq_refl eq_refl eq_refl eq_refl eq_refl eq_refl)
    as (resp & _ & Hbody & Hacc).
  exists resp. split; [exact Hbody|]. rewrite Hacc. repeat split.
Defined.

(** The claim as written fails: a resolved mode outside the three
    constants is answered with status 400, not 500. *)
Lemma unknown_mode_answer_not_500 :
  @admin_ClientConfigDomain Test.imports Test.legacy_domain = (Test.config_legacy, nil) /\
  @unknown_mode Test.imports (admin.TLSMode_of (admin.IMAP Test.config_legacy)) /\
  status (w (serve (@autoconfHandle Test.imports Test.autoconf_legacy) Test.start))
    = Some StatusBadRequest /\
  status (w (serve (@autoconfHandle Test.imports Test.autoconf_legacy) Test.start))
    <> Some StatusInternalServerError /\
  status (w (serve (@autodiscoverHandle Test.imports Test.autodiscover_legacy) Test.start))
    <> Some StatusInternalServerError.
Proof.
  split; [reflexivity|].
  split; [repeat split; discriminate|].
  split; [reflexivity|].
  split; vm_compute; discriminate.
Qed.

Lemma unknown_mode_answer_400_witness :
  exists m,
    @unknown_mode Test.imports m /\
    status (w (serve (@autoconfHandle Test.imports Test.autoconf_legacy) Test.start))
      = Some StatusBadRequest /\
    body (w (serve (@autoconfHandle Test.imports Test.autoconf_legacy) Test.start)) =
      error_body ("400 - bad request - unknown tls mode "
                  +:+ @format_TLSMode Test.imports m).
Proof.
  assert (Hunk : @unknown_mode Test.imports (admin.TLSMode_of (admin.IMAP Test.config_legacy)) \/
                 @unknown_mode Test.imports
                   (admin.TLSMode_of (admin.Submission Test.config_legacy))).
  { left. repeat split; discriminate. }
  exact (proj1 (@unknown_mode_answer_400 Test.imports ∅ ∅ [] Test.config_legacy Hunk)
           Test.autoconf_legacy Test.legacy_domain "user@legacy.example"
           eq_refl eq_refl).
Defined.

Lemma autodiscover_requires_post_witness :
  status (w (serve (@autodiscoverHandle Test.imports
                      (Test.get "autodiscover.example.org" [])) Test.start))
    = Some StatusMethodNotAllowed /\
  bodyRead (serve (@autodiscoverHandle Test.imports
                     (Test.get "autodiscover.example.org" [])) Test.start) = false.
Proof.
  assert (Hm : Method (Test.get "autodiscover.example.org" []) <> "POST")
    by discriminate.
  destruct (@autodiscover_requires_post Test.imports
              (Test.get "autodiscover.example.org" []) ∅ ∅ [] Hm)
    as (Hst & _ & Hread & _).
  split; [exact Hst | exact Hread].
Defined.

(** C6, the code at a body that does not decode: the text of the answer
    announces 400 and the status line is 405. *)
Theorem autodiscover_bad_body_status :
  snd (@xml_Decode Test.imports (Body Test.autodiscover_empty)) = Some "EOF" /\
  status (w (serve (@autodiscoverHandle Test.imports Test.autodiscover_empty) Test.start))
    = Some StatusMethodNotAllowed /\
  status (w (serve (@autodiscoverHandle Test.imports Test.autodiscover_empty) Test.start))
    <> Some StatusBadRequest /\
  body (w (serve (@autodiscoverHandle Test.imports Test.autodiscover_empty) Test.start))
    = error_body "400 - bad request - parsing autodiscover request: EOF".
Proof.
  split; [reflexivity|].
  destruct (@autodiscoverHandle_bad_body Test.imports Test.autodiscover_empty ∅ ∅ []
              (mkAutodiscoverRequest EmptyString EmptyString) "EOF" eq_refl eq_refl)
    as [Hst Hbody].
  split; [exact Hst|]. split; [|exact Hbody].
  unfold Test.start. rewrite Hst. discriminate.
Qed.

(** C9, the code at a request for user@example.org: the document names
    the domain example.org, and the counter that moved is the one with the
    empty label; the same for the Autodiscover handler. *)
Theorem request_counter_label_empty :
  (exists resp,
     body (w (serve (@autoconfHandle Test.imports Test.autoconf_user) Test.start))
       = [Text xml_Header; AutoconfigXML resp] /\
     EmailProvider_Domain resp = "example.org") /\
  metricAutoconf (serve (@autoconfHandle Test.imports Test.autoconf_user) Test.start)
    !! "example.org" = None /\
  metricAutoconf (serve (@autoconfHandle Test.imports Test.autoconf_user) Test.start)
    !! EmptyString = Some 1%nat /\
  metricAutodiscover
    (serve (@autodiscoverHandle Test.imports Test.autodiscover_user) Test.start)
    !! "example.org" = None /\
  metricAutodiscover
    (serve (@autodiscoverHandle Test.imports Test.autodiscover_user) Test.start)
    !! EmptyString = Some 1%nat.
Proof.
  split.
  - eexists. split; reflexivity.
  - rewrite (proj1 (@autoconfHandle_counters Test.imports Test.autoconf_user Test.start)).
    rewrite (proj1 (@autodiscoverHandle_counters Test.imports Test.autodiscover_user
                      Test.start)).
    repeat split; vm_compute; reflexivity.
Qed.

(** ** mobileconfigHandle *)

Section MobileconfigClaims.

Context `{Imports}.

Lemma mobileconfigHandle_filename_sanitize (filename : string) :
  mobileconfigHandle_filename filename =
  "email-account-" +:+ sanitize filename +:+ ".mobileconfig".
Proof. unfold mobileconfigHandle_filename. now rewrite ReplaceAll_sanitize. Qed.

(** C8. A mobileconfig request with a method other than GET is answered
    with status 405; a GET with an empty addresses parameter with status
    400 and an error text only, no profile bytes; a GET whose profile is
    built is answered with the profile bytes and the Content-Disposition
    header attachment; filename=, then in double quotes email-account-,
    the first address with every dot replaced by a dash and every at sign
    by -at-, and .mobileconfig. *)
Theorem mobileconfig_contract (r : Request) (ac ad : gmap string nat)
    (lg : list LogRecord) :
  (Method r <> "GET" ->
   status (w (serve (mobileconfigHandle r) (request_start ac ad lg)))
     = Some StatusMethodNotAllowed /\
   body (w (serve (mobileconfigHandle r) (request_start ac ad lg)))
     = error_body "405 - method not allowed - get required") /\
  (Method r = "GET" ->
   FormValue r "addresses" = EmptyString ->
   status (w (serve (mobileconfigHandle r) (request_start ac ad lg)))
     = Some StatusBadRequest /\
   body (w (serve (mobileconfigHandle r) (request_start ac ad lg)))
     = error_body "400 - bad request - missing/empty field addresses") /\
  (Method r = "GET" ->
   FormValue r "addresses" <> EmptyString ->
   forall buf,
     MobileConfig (strings.Split (FormValue r "addresses") ",") (FormValue r "name")
       = (buf, nil) ->
     fst (mobileconfigHandle r (request_start ac ad lg)) = Next tt /\
     header (w (serve (mobileconfigHandle r) (request_start ac ad lg)))
       !! "Content-Disposition"
       = Some ("attachment; filename=" +:+ dquote +:+ "email-account-"
               +:+ sanitize (first_address (FormValue r "addresses"))
               +:+ ".mobileconfig" +:+ dquote) /\
     status (w (serve (mobileconfigHandle r) (request_start ac ad lg))) = Some StatusOK /\
     body (w (serve (mobileconfigHandle r) (request_start ac ad lg))) = [Bytes buf]).
Proof.
  split; [|split].
  - intros Hm. apply method_is_not in Hm. run_handler. rewrite Hm.
    split; reflexivity.
  - intros Hm He. run_handler. rewrite (method_is _ _ Hm), He.
    split; reflexivity.
  - intros Hm Hne buf Hbuf. apply String.eqb_neq in Hne.
    run_handler. rewrite (method_is _ _ Hm), Hne. cbn [negb is_nil nil].
    rewrite Hbuf. cbn [negb is_nil nil].
    destruct (Split_first (FormValue r "addresses")) as [rest ->].
    rewrite mobileconfigHandle_filename_sanitize.
    split; [reflexivity|]. split; [|split; reflexivity].
    rewrite <- !append_assoc. rewrite !append_assoc. apply lookup_insert_eq.
Qed.

End MobileconfigClaims.

Lemma mobileconfig_contract_witness :
  header (w (serve (@mobileconfigHandle Test.imports Test.mobileconfig_two) Test.start))
    !! "Content-Disposition"
    = Some ("attachment; filename=" +:+ dquote
            +:+ "email-account-a-b-at-x-test.mobileconfig" +:+ dquote) /\
  status (w (serve (@mobileconfigHandle Test.imports Test.mobileconfig_two) Test.start))
    = Some StatusOK.
Proof.
  assert (Hne : FormValue Test.mobileconfig_two "addresses" <> EmptyString)
    by discriminate.
  destruct (proj2 (proj2 (@mobileconfig_contract Test.imports Test.mobileconfig_two
                            ∅ ∅ []))
              eq_refl Hne (list_byte_of_string "profile of A") eq_refl)
    as (_ & Hhdr & Hst & _).
  split; [exact Hhdr | exact Hst].
Defined.

(** * Further properties *)

(** ** Suffixes and comma-separated lists *)

Section SuffixFacts.

Lemma length_append (a b : string) :
  String.length (a +:+ b) = (String.length a + String.length b)%nat.
Proof.
  induction a as [|x a IH]; [reflexivity|].
  change (S (String.length (a +:+ b)) = S (String.length a + String.length b)).
  now rewrite IH.
Qed.

Lemma sliceTo_append (p rest : string) :
  strings.sliceTo (String.length p) (p +:+ rest) = p.
Proof.
  induction p as [|x p IH]; [reflexivity|].
  change (String x (strings.sliceTo (String.length p) (p +:+ rest)) = String x p).
  now rewrite IH.
Qed.

(** A string is its two slices at any index. *)
Lemma slice_split (n : nat) (s : string) :
  strings.sliceTo n s +:+ strings.sliceFrom n s = s.
Proof.
  revert s; induction n as [|n IH]; intros s; [reflexivity|].
  destruct s as [|c t]; [reflexivity|].
  change (String c (strings.sliceTo n t +:+ strings.sliceFrom n t) = String c t).
  now rewrite IH.
Qed.

Lemma HasSuffix_append (p suffix : string) :
  strings.HasSuffix (p +:+ suffix) suffix = true.
Proof.
  unfold strings.HasSuffix. rewrite length_append.
  replace (String.length p + String.length suffix - String.length suffix)%nat
    with (String.length p) by lia.
  rewrite sliceFrom_append, String.eqb_refl, andb_true_r.
  apply Nat.leb_le. lia.
Qed.

Lemma TrimSuffix_present (p suffix : string) :
  strings.TrimSuffix (p +:+ suffix) suffix = p.
Proof.
  unfold strings.TrimSuffix. rewrite HasSuffix_append, length_append.
  replace (String.length p + String.length suffix - String.length suffix)%nat
    with (String.length p) by lia.
  apply sliceTo_append.
Qed.

Lemma HasSuffix_split (s suffix : string) :
  strings.HasSuffix s suffix = true -> s = strings.TrimSuffix s suffix +:+ suffix.
Proof.
  intros Hs. unfold strings.TrimSuffix. rewrite Hs.
  unfold strings.HasSuffix in Hs. apply andb_true_iff in Hs as [_ He].
  apply String.eqb_eq in He.
  set (n := (String.length s - String.length suffix)%nat) in *.
  rewrite <- He. symmetry. apply slice_split.
Qed.

Lemma TrimSuffix_absent (s suffix : string) :
  (forall p, s <> p +:+ suffix) -> strings.TrimSuffix s suffix = s.
Proof.
  intros Hno. unfold strings.TrimSuffix.
  destruct (strings.HasSuffix s suffix) eqn:Hs; [|reflexivity].
  now destruct (Hno _ (HasSuffix_split _ _ Hs)).
Qed.

Lemma join_cons (sep p : string) (l : list string) :
  l <> [] -> join sep (p :: l) = p +:+ sep +:+ join sep l.
Proof. destruct l; [congruence | reflexivity]. Qed.

(** The scanning loop of [Split] for the comma: written back with commas
    between them, the pieces give the text; no piece holds a comma; there
    is one piece more than there are commas. *)
Lemma splitFrom_comma (s : string) :
  join "," (fst (strings.splitFrom "," 0 s) :: snd (strings.splitFrom "," 0 s)) = s /\
  forallb (fun p => negb (contains_byte "," p))
    (fst (strings.splitFrom "," 0 s) :: snd (strings.splitFrom "," 0 s)) = true /\
  length (snd (strings.splitFrom "," 0 s)) = count_byte "," s.
Proof.
  induction s as [|c t (IHj & IHc & IHn)]; [repeat split|].
  rewrite splitFrom_byte. rewrite (Ascii.eqb_sym ","%char c).
  destruct (strings.splitFrom "," 0 t) as [p ps]. cbn [fst snd] in *.
  destruct (Ascii.eqb c ",") eqn:Hc; cbn [fst snd].
  - apply Ascii.eqb_eq in Hc. subst c. split; [|split].
    + rewrite join_cons by discriminate. now rewrite IHj.
    + exact IHc.
    + cbn [count_byte length]. rewrite Ascii.eqb_refl, IHn. reflexivity.
  - split; [|split].
    + destruct ps as [|q ps]; [cbn [join] in *; now rewrite IHj|].
      rewrite join_cons by discriminate. rewrite join_cons in IHj by discriminate.
      change (String c (p +:+ "," +:+ join "," (q :: ps)) = String c t).
      now rewrite IHj.
    + cbn [forallb contains_byte] in *. rewrite Hc. exact IHc.
    + cbn [count_byte]. rewrite Hc. exact IHn.
Qed.

Lemma sanitize_byte_clean (c x : ascii) :
  (x = "."%char \/ x = "@"%char) -> contains_byte x (sanitize_byte c) = false.
Proof.
  intros Hx. unfold sanitize_byte.
  destruct (Ascii.eqb c ".") eqn:Hd; [destruct Hx; subst x; reflexivity|].
  destruct (Ascii.eqb c "@") eqn:Ha; [destruct Hx; subst x; reflexivity|].
  cbn [contains_byte]. destruct Hx; subst x; rewrite ?Hd, ?Ha; reflexivity.
Qed.

Lemma contains_byte_append (x : ascii) (a b : string) :
  contains_byte x (a +:+ b) = contains_byte x a || contains_byte x b.
Proof.
  induction a as [|c a IH]; [reflexivity|].
  change (Ascii.eqb c x || contains_byte x (a +:+ b)
          = Ascii.eqb c x || contains_byte x a || contains_byte x b).
  rewrite IH. now destruct (Ascii.eqb c x).
Qed.

Lemma sanitize_clean (s : string) (x : ascii) :
  (x = "."%char \/ x = "@"%char) -> contains_byte x (sanitize s) = false.
Proof.
  intros Hx. induction s as [|c t IH]; [reflexivity|].
  cbn [sanitize]. rewrite contains_byte_append, IH, (sanitize_byte_clean c x Hx).
  reflexivity.
Qed.

Lemma sanitize_id (s : string) :
  contains_byte "." s = false -> contains_byte "@" s = false -> sanitize s = s.
Proof.
  induction s as [|c t IH]; [reflexivity|].
  cbn [contains_byte sanitize]. intros Hd Ha.
  apply orb_false_iff in Hd as [Hd Hd'], Ha as [Ha Ha'].
  unfold sanitize_byte. rewrite Hd, Ha, (IH Hd' Ha'). reflexivity.
Qed.

End SuffixFacts.

(** ** The mappers, once more *)

Section MapperExtras.

Context `{Imports}.

(** X1. A mode that the Thunderbird mapper accepts is accepted by the
    Microsoft mapper too, and each of the two results determines the mode:
    no other mode is mapped to the same socketType, nor to the same ssl
    and encryption pair. *)
Theorem mappers_lossless (m1 m2 : admin.TLSMode) :
  snd (socketType m1) = nil ->
  snd (tlsmode m1) = nil /\
  (socketType m2 = socketType m1 -> m2 = m1) /\
  (tlsmode m2 = tlsmode m1 -> m2 = m1).
Proof.
  unfold socketType, tlsmode.
  destruct (Z.eqb_spec m1 TLSModeImmediate) as [E1|N1];
    [|destruct (Z.eqb_spec m1 TLSModeSTARTTLS) as [E1|N1'];
      [|destruct (Z.eqb_spec m1 TLSModeNone) as [E1|N1'']]];
    cbn [snd]; intros Hok; try discriminate; (split; [reflexivity|]);
    destruct (Z.eqb_spec m2 TLSModeImmediate) as [E2|N2];
    try destruct (Z.eqb_spec m2 TLSModeSTARTTLS) as [E2|N2'];
    try destruct (Z.eqb_spec m2 TLSModeNone) as [E2|N2''];
    split; intros E; solve [congruence | discriminate E].
Qed.

End MapperExtras.

Lemma mappers_lossless_witness :
  snd (@tlsmode Test.imports 1) = nil /\
  (@socketType Test.imports 1 = @socketType Test.imports 1 -> 1 = 1).
Proof.
  destruct (@mappers_lossless Test.imports 1 1 eq_refl) as (Hm & Hs & _).
  split; [exact Hm | exact Hs].
Defined.

(** ** autoconfHandle, once more *)

Section AutoconfExtras.

Context `{Imports}.

(** X2. Whatever the request, the autoconfig handler ends in one of two
    ways: status 200 with the XML content type and exactly the XML header
    and one document, or status 400 with a plain-text answer that starts
    with 400 - bad request and no document.  It never answers with
    another status. *)
Theorem autoconf_outcomes (r : Request) (ac ad : gmap string nat)
    (lg : list LogRecord) :
  (status (w (serve (autoconfHandle r) (request_start ac ad lg))) = Some StatusOK /\
   header (w (serve (autoconfHandle r) (request_start ac ad lg)))
     = {[ "Content-Type" := "application/xml; charset=utf-8" ]} /\
   exists resp,
     body (w (serve (autoconfHandle r) (request_start ac ad lg)))
       = [Text xml_Header; AutoconfigXML resp]) \/
  (status (w (serve (autoconfHandle r) (request_start ac ad lg))) = Some StatusBadRequest /\
   header (w (serve (autoconfHandle r) (request_start ac ad lg))) = error_header /\
   exists msg,
     body (w (serve (autoconfHandle r) (request_start ac ad lg)))
       = error_body ("400 - bad request - " +:+ msg)).
Proof.
  run_handler. unfold autoconfHandle_domain.
  destruct (String.eqb (FormValue r "emailaddress") EmptyString).
  - destruct (dns_ParseDomain (Host r)) as [d [m|]]; cbn [is_nil negb].
    { right. split; [reflexivity|]. split; [reflexivity|].
      exists ("invalid domain: " +:+ Host r). reflexivity. }
    cbn [ret bind].
    destruct (admin_ClientConfigDomain _) as [config [m|]]; cbn [is_nil negb].
    { right. split; [reflexivity|]. split; [reflexivity|]. exists m. reflexivity. }
    destruct (socketType (admin.TLSMode_of (admin.IMAP config))) as [it [m|]];
      cbn [is_nil negb].
    { right. split; [reflexivity|]. split; [reflexivity|]. exists m. reflexivity. }
    destruct (socketType (admin.TLSMode_of (admin.Submission config))) as [st [m|]];
      cbn [is_nil negb].
    { right. split; [reflexivity|]. split; [reflexivity|]. exists m. reflexivity. }
    left. split; [reflexivity|]. split; [reflexivity|]. eexists. reflexivity.
  - destruct (smtp_ParseAddress _) as [a [m|]]; cbn [is_nil negb].
    { right. split; [reflexivity|]. split; [reflexivity|].
      exists "invalid parameter emailaddress". reflexivity. }
    cbn [ret bind].
    destruct (admin_ClientConfigDomain _) as [config [m|]]; cbn [is_nil negb].
    { right. split; [reflexivity|]. split; [reflexivity|]. exists m. reflexivity. }
    destruct (socketType (admin.TLSMode_of (admin.IMAP config))) as [it [m|]];
      cbn [is_nil negb].
    { right. split; [reflexivity|]. split; [reflexivity|]. exists m. reflexivity. }
    destruct (socketType (admin.TLSMode_of (admin.Submission config))) as [st [m|]];
      cbn [is_nil negb].
    { right. split; [reflexivity|]. split; [reflexivity|]. exists m. reflexivity. }
    left. split; [reflexivity|]. split; [reflexivity|]. eexists. reflexivity.
Qed.


(** X4. For an accepted input and a resolved configuration, the document
    is sent with the XML content type; its version is 1.1; its id, domain
    and short display name are the ASCII form of the domain; its display
    name is the identity; and its update URL is https://autoconfig.
    followed by the ASCII form of the domain and /mail/config-v1.1.xml. *)
Theorem autoconf_document_identity (r : Request) (ac ad : gmap string nat)
    (lg : list LogRecord) (domain : dns.Domain) (identity : string)
    (config : admin.ClientConfig) (imapTLS submissionTLS : string) :
  fst (autoconfHandle_domain r (FormValue r "emailaddress") (request_start ac ad lg))
    = Next (domain, identity) ->
  admin_ClientConfigDomain domain = (config, nil) ->
  socketType (admin.TLSMode_of (admin.IMAP config)) = (imapTLS, nil) ->
  socketType (admin.TLSMode_of (admin.Submission config)) = (submissionTLS, nil) ->
  exists resp,
    body (w (serve (autoconfHandle r) (request_start ac ad lg)))
      = [Text xml_Header; AutoconfigXML resp] /\
    header (w (serve (autoconfHandle r) (request_start ac ad lg))) !! "Content-Type"
      = Some "application/xml; charset=utf-8" /\
    Version resp = "1.1" /\
    EmailProvider_ID resp = dns.ASCII domain /\
    EmailProvider_Domain resp = dns.ASCII domain /\
    EmailProvider_DisplayShortName resp = dns.ASCII domain /\
    EmailProvider_DisplayName resp = identity /\
    ClientConfigUpdate_URL resp
      = "https://autoconfig." +:+ dns.ASCII domain +:+ "/mail/config-v1.1.xml".
Proof.
  intros Hin Hcfg Himap Hsub.
  exists (autoconfHandle_response domain identity config imapTLS submissionTLS).
  rewrite (autoconfHandle_resolved _ _ _ _ _ _ _ _ _ Hin Hcfg Himap Hsub).
  cbn [w body header].
  split; [reflexivity|]. split; [apply lookup_singleton_eq|]. repeat split.
Qed.

(** X5. A probe without an address on the host autoconfig.D, for a
    configured domain D: the resolver is asked for D, the document names D
    as its domain, carries the placeholder as display name and as the
    user name of every server entry, and its update URL is https:// and
    the host that was asked, followed by /mail/config-v1.1.xml. *)
Theorem autoconf_probe_roundtrip (r : Request) (ac ad : gmap string nat)
    (lg : list LogRecord) (d : dns.Domain) (rest : string)
    (config : admin.ClientConfig) (imapTLS submissionTLS : string) :
  FormValue r "emailaddress" = EmptyString ->
  dns_ParseDomain (Host r) = (d, nil) ->
  dns.ASCII d = "autoconfig." +:+ rest ->
  admin_ClientConfigDomain
    (dns.mkDomain rest (strings.TrimPrefix (dns.Unicode d) "autoconfig."))
    = (config, nil) ->
  socketType (admin.TLSMode_of (admin.IMAP config)) = (imapTLS, nil) ->
  socketType (admin.TLSMode_of (admin.Submission config)) = (submissionTLS, nil) ->
  exists resp,
    body (w (serve (autoconfHandle r) (request_start ac ad lg)))
      = [Text xml_Header; AutoconfigXML resp] /\
    EmailProvider_Domain resp = rest /\
    EmailProvider_DisplayName resp = "%EMAILADDRESS%" /\
    ClientConfigUpdate_URL resp = "https://" +:+ dns.ASCII d +:+ "/mail/config-v1.1.xml" /\
    Forall (fun e => in_Username e = "%EMAILADDRESS%")
      (EmailProvider_IncomingServers resp) /\
    Forall (fun e => out_Username e = "%EMAILADDRESS%")
      (EmailProvider_OutgoingServers resp).
Proof.
  intros He Hd Hascii Hcfg Himap Hsub.
  assert (Hin :
    fst (autoconfHandle_domain r (FormValue r "emailaddress") (request_start ac ad lg))
    = Next (dns.mkDomain rest (strings.TrimPrefix (dns.Unicode d) "autoconfig."),
            "%EMAILADDRESS%")).
  { unfold autoconfHandle_domain. rewrite He, Hd. cbn [String.eqb is_nil negb nil].
    cbn [dns.ASCII dns.Unicode]. rewrite Hascii, TrimPrefix_present. reflexivity. }
  eexists.
  rewrite (autoconfHandle_resolved _ _ _ _ _ _ _ _ _ Hin Hcfg Himap Hsub).
  cbn [w body]. split; [reflexivity|].
  rewrite autoconfHandle_response_incoming, autoconfHandle_response_outgoing.
  rewrite Hascii.
  split; [reflexivity|]. split; [reflexivity|]. split; [reflexivity|].
  split.
  - destruct (admin.EnabledOnHTTPS (admin.IMAP config)); repeat constructor.
  - destruct (admin.EnabledOnHTTPS (admin.Submission config)); repeat constructor.
Qed.

End AutoconfExtras.


Lemma autoconf_document_identity_witness :
  exists resp,
    body (w (serve (@autoconfHandle Test.imports Test.autoconf_user) Test.start))
      = [Text xml_Header; AutoconfigXML resp] /\
    EmailProvider_DisplayName resp = "user@example.org" /\
    ClientConfigUpdate_URL resp = "https://autoconfig.example.org/mail/config-v1.1.xml".
Proof.
  destruct (@autoconf_document_identity Test.imports Test.autoconf_user ∅ ∅ []
              Test.user_domain "user@example.org" Test.config_example
              "SSL" "STARTTLS" eq_refl eq_refl eq_refl eq_refl)
    as (resp & Hbody & _ & _ & _ & _ & _ & Hname & Hurl).
  exists resp. split; [exact Hbody|]. split; [exact Hname | exact Hurl].
Defined.

Lemma autoconf_probe_roundtrip_witness :
  exists resp,
    body (w (serve (@autoconfHandle Test.imports Test.autoconf_host) Test.start))
      = [Text xml_Header; AutoconfigXML resp] /\
    EmailProvider_Domain resp = "example.org" /\
    ClientConfigUpdate_URL resp = "https://autoconfig.example.org/mail/config-v1.1.xml".
Proof.
  destruct (@autoconf_probe_roundtrip Test.imports Test.autoconf_host ∅ ∅ []
              (dns.mkDomain "autoconfig.example.org" "autoconfig.example.org")
              "example.org" Test.config_example "SSL" "STARTTLS"
              eq_refl eq_refl eq_refl eq_refl eq_refl eq_refl)
    as (resp & Hbody & Hdom & _ & Hurl & _).
  exists resp. split; [exact Hbody|]. split; [exact Hdom | exact Hurl].
Defined.

(** ** autodiscoverHandle, once more *)

Section AutodiscoverExtras.

Context `{Imports}.

(** X6. Whatever the request, the Autodiscover handler ends in one of
    three ways: status 200 with the XML content type and exactly the XML
    header and one document; status 400 with a plain-text answer that
    starts with 400 - bad request; or status 405 with a plain-text answer.
    An answer other than 200 carries no document, and for a method other
    than POST the answer is the 405 one. *)
Theorem autodiscover_outcomes (r : Request) (ac ad : gmap string nat)
    (lg : list LogRecord) :
  (Method r = "POST" /\
   status (w (serve (autodiscoverHandle r) (request_start ac ad lg))) = Some StatusOK /\
   header (w (serve (autodiscoverHandle r) (request_start ac ad lg)))
     = {[ "Content-Type" := "application/xml; charset=utf-8" ]} /\
   exists resp,
     body (w (serve (autodiscoverHandle r) (request_start ac ad lg)))
       = [Text xml_Header; AutodiscoverXML resp]) \/
  (Method r = "POST" /\
   status (w (serve (autodiscoverHandle r) (request_start ac ad lg)))
     = Some StatusBadRequest /\
   header (w (serve (autodiscoverHandle r) (request_start ac ad lg))) = error_header /\
   exists msg,
     body (w (serve (autodiscoverHandle r) (request_start ac ad lg)))
       = error_body ("400 - bad request - " +:+ msg)) \/
  (status (w (serve (autodiscoverHandle r) (request_start ac ad lg)))
     = Some StatusMethodNotAllowed /\
   header (w (serve (autodiscoverHandle r) (request_start ac ad lg))) = error_header /\
   exists msg,
     body (w (serve (autodiscoverHandle r) (request_start ac ad lg))) = error_body msg).
Proof.
  run_handler.
  destruct (String.eqb_spec (Method r) "POST") as [Hm|Hm]; cbn [negb].
  2:{ right. right. split; [reflexivity|]. split; [reflexivity|].
      eexists. reflexivity. }
  destruct (xml_Decode (Body r)) as [req [m|]]; cbn [is_nil negb].
  { right. right. split; [reflexivity|]. split; [reflexivity|].
    eexists. reflexivity. }
  destruct (smtp_ParseAddress _) as [a [m|]]; cbn [is_nil negb].
  { right. left. split; [exact Hm|]. split; [reflexivity|]. split; [reflexivity|].
    exists "invalid parameter emailaddress". reflexivity. }
  destruct (admin_ClientConfigDomain _) as [config [m|]]; cbn [is_nil negb].
  { right. left. split; [exact Hm|]. split; [reflexivity|]. split; [reflexivity|].
    exists m. reflexivity. }
  destruct (tlsmode (admin.TLSMode_of (admin.IMAP config))) as [[i1 i2] [m|]];
    cbn [is_nil negb].
  { right. left. split; [exact Hm|]. split; [reflexivity|]. split; [reflexivity|].
    exists m. reflexivity. }
  destruct (tlsmode (admin.TLSMode_of (admin.Submission config))) as [[s1 s2] [m|]];
    cbn [is_nil negb].
  { right. left. split; [exact Hm|]. split; [reflexivity|]. split; [reflexivity|].
    exists m. reflexivity. }
  left. split; [exact Hm|]. split; [reflexivity|]. split; [reflexivity|].
  eexists. reflexivity.
Qed.

(** X7. The Autodiscover handler looks at the method and the body only:
    the request host and the form parameters play no part, the domain is
    the one of the address in the body. *)
Theorem autodiscover_host_ignored (r r' : Request) (s : World) :
  Method r = Method r' ->
  Body r = Body r' ->
  autodiscoverHandle r s = autodiscoverHandle r' s.
Proof.
  intros Hm Hb. unfold autodiscoverHandle, decodeBody. rewrite Hm, Hb. reflexivity.
Qed.

(** X8. A successful Autodiscover answer is sent with the XML content
    type; its root element is Autodiscover in the 2006 responseschema
    namespace and its Response element is in the 2006a outlook namespace;
    each Protocol entry names the ASCII host and the port of its endpoint;
    the body has been read once and one debug record with the requested
    address has been logged. *)
Theorem autodiscover_envelope (r : Request) (ac ad : gmap string nat)
    (lg : list LogRecord) (req : autodiscoverRequest) (addr : smtp.Address)
    (config : admin.ClientConfig)
    (imapSSL imapEncryption submissionSSL submissionEncryption : string) :
  Method r = "POST" ->
  xml_Decode (Body r) = (req, nil) ->
  smtp_ParseAddress (Request_EmailAddress req) = (addr, nil) ->
  admin_ClientConfigDomain (smtp.Domain addr) = (config, nil) ->
  tlsmode (admin.TLSMode_of (admin.IMAP config)) = (imapSSL, imapEncryption, nil) ->
  tlsmode (admin.TLSMode_of (admin.Submission config))
    = (submissionSSL, submissionEncryption, nil) ->
  exists resp,
    body (w (serve (autodiscoverHandle r) (request_start ac ad lg)))
      = [Text xml_Header; AutodiscoverXML resp] /\
    header (w (serve (autodiscoverHandle r) (request_start ac ad lg))) !! "Content-Type"
      = Some "application/xml; charset=utf-8" /\
    XMLName resp =
      {| Space := "http://schemas.microsoft.com/exchange/autodiscover/responseschema/2006";
         Local := "Autodiscover" |} /\
    Response_XMLName resp =
      {| Space := "http://schemas.microsoft.com/exchange/autodiscover/outlook/responseschema/2006a";
         Local := "Response" |} /\
    map (fun p => (Server p, Port p)) (Protocol (Response_Account resp)) =
      [(dns.ASCII (admin.Host (admin.IMAP config)), admin.Port (admin.IMAP config));
       (dns.ASCII (admin.Host (admin.Submission config)),
        admin.Port (admin.Submission config))] /\
    bodyRead (serve (autodiscoverHandle r) (request_start ac ad lg)) = true /\
    logged (serve (autodiscoverHandle r) (request_start ac ad lg)) =
      (lg ++ [mkLogRecord "autodiscover request" "email" (Request_EmailAddress req)])%list.
Proof.
  intros Hm Hdec Haddr Hcfg Himap Hsub.
  eexists.
  rewrite (autodiscoverHandle_resolved _ _ _ _ _ _ _ _ _ _ _
             Hm Hdec Haddr Hcfg Himap Hsub).
  cbn [w body header bodyRead logged].
  split; [reflexivity|]. split; [apply lookup_singleton_eq|]. repeat split.
Qed.

(** X9. When the input of a request is accepted and the configuration
    lookup fails, both handlers answer with status 400 and the text 400 -
    bad request - followed by the text of the lookup's error, and write no
    document; the modes of the returned configuration are not looked at. *)
Theorem resolver_failure_answer (ac ad : gmap string nat) (lg : list LogRecord)
    (domain : dns.Domain) (config : admin.ClientConfig) (m : string) :
  admin_ClientConfigDomain domain = (config, Some m) ->
  (forall r identity,
     fst (autoconfHandle_domain r (FormValue r "emailaddress") (request_start ac ad lg))
       = Next (domain, identity) ->
     status (w (serve (autoconfHandle r) (request_start ac ad lg)))
       = Some StatusBadRequest /\
     body (w (serve (autoconfHandle r) (request_start ac ad lg)))
       = error_body ("400 - bad request - " +:+ m)) /\
  (forall r req addr,
     Method r = "POST" ->
     xml_Decode (Body r) = (req, nil) ->
     smtp_ParseAddress (Request_EmailAddress req) = (addr, nil) ->
     smtp.Domain addr = domain ->
     status (w (serve (autodiscoverHandle r) (request_start ac ad lg)))
       = Some StatusBadRequest /\
     body (w (serve (autodiscoverHandle r) (request_start ac ad lg)))
       = error_body ("400 - bad request - " +:+ m)).
Proof.
  intros Hcfg. split.
  - intros r identity Hin. run_handler.
    rewrite (autoconfHandle_domain_pure _ _ _ _ Hin), Hcfg. split; reflexivity.
  - intros r req addr Hm Hdec Haddr Hdom. run_handler.
    rewrite (method_is _ _ Hm), Hdec. cbn [negb is_nil nil].
    rewrite Haddr. cbn [negb is_nil nil]. rewrite Hdom, Hcfg. split; reflexivity.
Qed.

End AutodiscoverExtras.

Lemma autodiscover_host_ignored_witness :
  @autodiscoverHandle Test.imports
    {| Method := "POST"; Host := "elsewhere.example";
       Form := [("emailaddress", "other@legacy.example")];
       Body := "user@example.org" |}
    Test.start
  = @autodiscoverHandle Test.imports Test.autodiscover_user Test.start.
Proof.
  exact (@autodiscover_host_ignored Test.imports
           {| Method := "POST"; Host := "elsewhere.example";
              Form := [("emailaddress", "other@legacy.example")];
              Body := "user@example.org" |}
           Test.autodiscover_user Test.start eq_refl eq_refl).
Defined.

Lemma autodiscover_envelope_witness :
  exists resp,
    body (w (serve (@autodiscoverHandle Test.imports Test.autodiscover_user) Test.start))
      = [Text xml_Header; AutodiscoverXML resp] /\
    map (fun p => (Server p, Port p)) (Protocol (Response_Account resp)) =
      [("mail.example.org", 993); ("mail.example.org", 587)].
Proof.
  destruct (@autodiscover_envelope Test.imports Test.autodiscover_user ∅ ∅ []
              (mkAutodiscoverRequest "user@example.org" EmptyString)
              (smtp.mkAddress "user" Test.user_domain) Test.config_example
              "on" "TLS" "on" EmptyString
              eq_refl eq_refl eq_refl eq_refl eq_refl eq_refl)
    as (resp & Hbody & _ & _ & _ & Hsrv & _).
  exists resp. split; [exact Hbody | exact Hsrv].
Defined.

Lemma resolver_failure_answer_witness :
  status (w (serve (@autoconfHandle Test.imports
                      (Test.get "autoconfig.example.org"
                         [("emailaddress", "user@unknown.example")])) Test.start))
    = Some StatusBadRequest /\
  body (w (serve (@autoconfHandle Test.imports
                    (Test.get "autoconfig.example.org"
                       [("emailaddress", "user@unknown.example")])) Test.start))
    = error_body "400 - bad request - domain not found".
Proof.
  exact (proj1 (@resolver_failure_answer Test.imports ∅ ∅ []
                  (dns.mkDomain "unknown.example" "unknown.example")
                  Test.zeroConfig "domain not found" eq_refl)
           (Test.get "autoconfig.example.org" [("emailaddress", "user@unknown.example")])
           "user@unknown.example" eq_refl).
Defined.

(** ** The request counters *)

Section CounterExtras.

Context `{Imports}.

Lemma CounterInc_same (l : string) (vec : gmap string nat) :
  CounterInc l vec !! l = Some (S (default O (vec !! l))).
Proof. unfold CounterInc. apply lookup_insert_eq. Qed.

Lemma CounterInc_other (l l' : string) (vec : gmap string nat) :
  l' <> l -> CounterInc l vec !! l' = vec !! l'.
Proof. intros Hne. unfold CounterInc. apply lookup_insert_ne. congruence. Qed.

(** X10. Whatever the outcome of a request, the autoconfig handler adds
    exactly one to one counter of its vector, the one with the empty
    label, and leaves every other label and the Autodiscover vector as
    they were; the Autodiscover handler does the same on its own vector. *)
Theorem request_counters_frame (r : Request) (s : World) :
  (metricAutoconf (serve (autoconfHandle r) s) !! EmptyString
     = Some (S (default O (metricAutoconf s !! EmptyString))) /\
   (forall l, l <> EmptyString ->
      metricAutoconf (serve (autoconfHandle r) s) !! l = metricAutoconf s !! l) /\
   metricAutodiscover (serve (autoconfHandle r) s) = metricAutodiscover s) /\
  (metricAutodiscover (serve (autodiscoverHandle r) s) !! EmptyString
     = Some (S (default O (metricAutodiscover s !! EmptyString))) /\
   (forall l, l <> EmptyString ->
      metricAutodiscover (serve (autodiscoverHandle r) s) !! l
        = metricAutodiscover s !! l) /\
   metricAutoconf (serve (autodiscoverHandle r) s) = metricAutoconf s).
Proof.
  destruct (autoconfHandle_counters r s) as [Ha Ha'].
  destruct (autodiscoverHandle_counters r s) as [Hd Hd'].
  rewrite Ha, Hd. repeat split; try assumption.
  - apply CounterInc_same.
  - intros l Hl. now apply CounterInc_other.
  - apply CounterInc_same.
  - intros l Hl. now apply CounterInc_other.
Qed.

(** X11. After a run of requests served one after the other by the
    autoconfig handler, the counter with the empty label has grown by the
    number of requests, whatever their outcomes, and the Autodiscover
    vector is as it was; likewise for the Autodiscover handler. *)
Theorem counters_count_requests (rs : list Request) (s : World) :
  (default O (metricAutoconf (serve_all autoconfHandle rs s) !! EmptyString)
     = (default O (metricAutoconf s !! EmptyString) + length rs)%nat /\
   metricAutodiscover (serve_all autoconfHandle rs s) = metricAutodiscover s) /\
  (default O (metricAutodiscover (serve_all autodiscoverHandle rs s) !! EmptyString)
     = (default O (metricAutodiscover s !! EmptyString) + length rs)%nat /\
   metricAutoconf (serve_all autodiscoverHandle rs s) = metricAutoconf s).
Proof.
  revert s. induction rs as [|r rs IH]; intros s.
  - cbn [serve_all fold_left length]. rewrite !Nat.add_0_r. repeat split.
  - change (serve_all autoconfHandle (r :: rs) s)
      with (serve_all autoconfHandle rs (serve (autoconfHandle r) (next_request s))).
    change (serve_all autodiscoverHandle (r :: rs) s)
      with (serve_all autodiscoverHandle rs
              (serve (autodiscoverHandle r) (next_request s))).
    destruct (IH (serve (autoconfHandle r) (next_request s))) as [[Ha Ha'] _].
    destruct (IH (serve (autodiscoverHandle r) (next_request s))) as [_ [Hd Hd']].
    rewrite Ha, Ha', Hd, Hd'.
    destruct (autoconfHandle_counters r (next_request s)) as [Ea Ea'].
    destruct (autodiscoverHandle_counters r (next_request s)) as [Ed Ed'].
    rewrite Ea, Ea', Ed, Ed', !CounterInc_same.
    unfold next_request, request_start. cbn.
    repeat split; lia.
Qed.

End CounterExtras.

(** ** mobileconfigHandle, once more *)

Section MobileconfigExtras.

Context `{Imports}.


(** X13. Whatever the request, the mobileconfig handler ends in one of
    three ways: status 200 with a Content-Disposition header and exactly
    the profile bytes; status 400 with a plain-text answer that starts
    with 400 - bad request; or, exactly when the method is not GET,
    status 405 with its plain-text answer. *)
Theorem mobileconfig_outcomes (r : Request) (ac ad : gmap string nat)
    (lg : list LogRecord) :
  (Method r = "GET" /\
   status (w (serve (mobileconfigHandle r) (request_start ac ad lg))) = Some StatusOK /\
   exists name buf,
     header (w (serve (mobileconfigHandle r) (request_start ac ad lg)))
       = {[ "Content-Disposition" := name ]} /\
     body (w (serve (mobileconfigHandle r) (request_start ac ad lg))) = [Bytes buf]) \/
  (Method r = "GET" /\
   status (w (serve (mobileconfigHandle r) (request_start ac ad lg)))
     = Some StatusBadRequest /\
   header (w (serve (mobileconfigHandle r) (request_start ac ad lg))) = error_header /\
   exists msg,
     body (w (serve (mobileconfigHandle r) (request_start ac ad lg)))
       = error_body ("400 - bad request - " +:+ msg)) \/
  (Method r <> "GET" /\
   status (w (serve (mobileconfigHandle r) (request_start ac ad lg)))
     = Some StatusMethodNotAllowed /\
   header (w (serve (mobileconfigHandle r) (request_start ac ad lg))) = error_header /\
   body (w (serve (mobileconfigHandle r) (request_start ac ad lg)))
     = error_body "405 - method not allowed - get required").
Proof.
  run_handler.
  destruct (String.eqb_spec (Method r) "GET") as [Hm|Hm]; cbn [negb].
  2:{ right. right. now repeat split. }
  destruct (String.eqb (FormValue r "addresses") EmptyString);
    cbn [is_nil negb nil Errorf].
  { right. left. split; [exact Hm|]. split; [reflexivity|]. split; [reflexivity|].
    exists "missing/empty field addresses". reflexivity. }
  destruct (MobileConfig _ _) as [buf [m|]]; cbn [is_nil negb].
  { right. left. split; [exact Hm|]. split; [reflexivity|]. split; [reflexivity|].
    exists m. reflexivity. }
  destruct (Split_first (FormValue r "addresses")) as [rest ->].
  left. split; [exact Hm|]. split; [reflexivity|]. do 2 eexists. split; reflexivity.
Qed.

(** X14. When the profile cannot be built for a GET with a non-empty
    addresses parameter, the answer is status 400 with the text 400 - bad
    request - followed by the text of the builder's error; no
    Content-Disposition header is set and no profile bytes are written. *)
Theorem mobileconfig_profile_error (r : Request) (ac ad : gmap string nat)
    (lg : list LogRecord) (buf : list Byte.byte) (m : string) :
  Method r = "GET" ->
  FormValue r "addresses" <> EmptyString ->
  MobileConfig (strings.Split (FormValue r "addresses") ",") (FormValue r "name")
    = (buf, Some m) ->
  status (w (serve (mobileconfigHandle r) (request_start ac ad lg)))
    = Some StatusBadRequest /\
  body (w (serve (mobileconfigHandle r) (request_start ac ad lg)))
    = error_body ("400 - bad request - " +:+ m) /\
  header (w (serve (mobileconfigHandle r) (request_start ac ad lg)))
    !! "Content-Disposition" = None.
Proof.
  intros Hm Hne Hbuf. apply String.eqb_neq in Hne.
  run_handler. rewrite (method_is _ _ Hm), Hne. cbn [negb is_nil nil].
  rewrite Hbuf. split; [reflexivity|]. split; [reflexivity|].
  vm_compute. reflexivity.
Qed.

End MobileconfigExtras.

(** X15. The file name the handler builds from an address is
    email-account-, a middle part and .mobileconfig, where the middle
    part holds no dot and no at sign, so that the only dot of the name is
    the one of its extension; an address without dot and at sign is its
    own middle part. *)
Theorem mobileconfig_filename_clean (address : string) :
  exists middle,
    mobileconfigHandle_filename address
      = "email-account-" +:+ middle +:+ ".mobileconfig" /\
    contains_byte "." middle = false /\
    contains_byte "@" middle = false /\
    (contains_byte "." address = false -> contains_byte "@" address = false ->
     middle = address).
Proof.
  exists (sanitize address).
  split; [unfold mobileconfigHandle_filename; now rewrite ReplaceAll_sanitize|].
  split; [apply sanitize_clean; now left|].
  split; [apply sanitize_clean; now right|].
  apply sanitize_id.
Qed.

(** X16. The list the handler cuts out of the addresses parameter and
    hands to the profile builder: written one after the other with commas
    between them its pieces give the parameter back, no piece holds a
    comma, and there is one piece more than the parameter has commas (one
    empty piece for the empty parameter). *)
Theorem mobileconfig_addresses_split (addresses : string) :
  join "," (strings.Split addresses ",") = addresses /\
  forallb (fun p => negb (contains_byte "," p)) (strings.Split addresses ",") = true /\
  length (strings.Split addresses ",") = S (count_byte "," addresses).
Proof.
  unfold strings.Split.
  destruct (splitFrom_comma addresses) as (Hj & Hc & Hn).
  destruct (strings.splitFrom "," 0 addresses) as [p ps]. cbn [fst snd] in *.
  split; [exact Hj|]. split; [exact Hc|]. cbn [length]. now rewrite Hn.
Qed.

Lemma mobileconfig_profile_error_witness :
  status (w (serve (@mobileconfigHandle Test.imports
                      (Test.get "mail.example.org" [("addresses", "nobody")]))
               Test.start))
    = Some StatusBadRequest /\
  body (w (serve (@mobileconfigHandle Test.imports
                    (Test.get "mail.example.org" [("addresses", "nobody")]))
             Test.start))
    = error_body "400 - bad request - parsing address".
Proof.
  assert (Hne : FormValue (Test.get "mail.example.org" [("addresses", "nobody")])
                  "addresses" <> EmptyString) by discriminate.
  destruct (@mobileconfig_profile_error Test.imports
              (Test.get "mail.example.org" [("addresses", "nobody")]) ∅ ∅ []
              [] "parsing address" eq_refl Hne eq_refl)
    as (Hst & Hbody & _).
  split; [exact Hst | exact Hbody].
Defined.

(** ** mobileconfigQRCodeHandle *)

Section QRCodeExtras.

Context `{QRImports}.

Lemma HasSuffix_absent (s suffix : string) :
  (forall p, s <> p +:+ suffix) -> strings.HasSuffix s suffix = false.
Proof.
  intros Hno. destruct (strings.HasSuffix s suffix) eqn:Hs; [|reflexivity].
  now destruct (Hno _ (HasSuffix_split _ _ Hs)).
Qed.

(** The URL that is encoded for a path that ends in the suffix. *)
Lemma mobileconfigQRCodeHandle_url_path (r : URLRequest) (p : string) :
  url.Path (URL r) = p +:+ ".qrcode.png" ->
  mobileconfigQRCodeHandle_url r =
  {| url.Scheme := if TLS r then "https" else "http";
     url.Opaque := url.Opaque (URL r);
     url.User := url.User (URL r);
     url.Host := Host (request r);
     url.Path := p;
     url.RawPath := url.RawPath (URL r);
     url.OmitHost := url.OmitHost (URL r);
     url.ForceQuery := url.ForceQuery (URL r);
     url.RawQuery := url.RawQuery (URL r);
     url.Fragment := url.Fragment (URL r);
     url.RawFragment := url.RawFragment (URL r) |}.
Proof.
  intros Hp. unfold mobileconfigQRCodeHandle_url.
  destruct (TLS r); cbn [negb url.Scheme url.Opaque url.User url.Host url.Path
    url.RawPath url.OmitHost url.ForceQuery url.RawQuery url.Fragment url.RawFragment];
    now rewrite Hp, TrimSuffix_present.
Qed.

(** X17. The QR code handler answers a method other than GET with status
    405, and a GET whose path does not end in .qrcode.png with status 404
    and the text 404 page not found; in both cases nothing is encoded. *)
Theorem qrcode_rejections (r : URLRequest) (ac ad : gmap string nat)
    (lg : list LogRecord) :
  (Method (request r) <> "GET" ->
   status (w (serve (mobileconfigQRCodeHandle r) (request_start ac ad lg)))
     = Some StatusMethodNotAllowed /\
   body (w (serve (mobileconfigQRCodeHandle r) (request_start ac ad lg)))
     = error_body "405 - method not allowed - get required") /\
  (Method (request r) = "GET" ->
   (forall p, url.Path (URL r) <> p +:+ ".qrcode.png") ->
   status (w (serve (mobileconfigQRCodeHandle r) (request_start ac ad lg)))
     = Some StatusNotFound /\
   body (w (serve (mobileconfigQRCodeHandle r) (request_start ac ad lg)))
     = error_body "404 page not found").
Proof.
  split.
  - intros Hm. apply method_is_not in Hm.
    unfold serve, mobileconfigQRCodeHandle, bind, when. rewrite Hm.
    split; reflexivity.
  - intros Hm Hno. apply HasSuffix_absent in Hno.
    unfold serve, mobileconfigQRCodeHandle, bind, when.
    rewrite (method_is _ _ Hm), Hno. split; reflexivity.
Qed.

(** X18. For a GET on a path P followed by .qrcode.png, the text that is
    encoded, at level L, is the String of the request URL with the scheme
    https when the connection has TLS and http otherwise, the request
    host as host, and P as path.  When the encoder succeeds the answer is
    status 200 with content type image/png and exactly the PNG bytes of
    the code; when it fails the answer is status 500 with the text 500 -
    internal server error - generating qr-code: and the encoder's error. *)
Theorem qrcode_answer (r : URLRequest) (ac ad : gmap string nat)
    (lg : list LogRecord) (p : string) (code : qr_Code) (err : error) :
  Method (request r) = "GET" ->
  url.Path (URL r) = p +:+ ".qrcode.png" ->
  qr_Encode
    (url_String
       {| url.Scheme := if TLS r then "https" else "http";
          url.Opaque := url.Opaque (URL r);
          url.User := url.User (URL r);
          url.Host := Host (request r);
          url.Path := p;
          url.RawPath := url.RawPath (URL r);
          url.OmitHost := url.OmitHost (URL r);
          url.ForceQuery := url.ForceQuery (URL r);
          url.RawQuery := url.RawQuery (URL r);
          url.Fragment := url.Fragment (URL r);
          url.RawFragment := url.RawFragment (URL r) |})
    qr_L = (code, err) ->
  match err with
  | None =>
      status (w (serve (mobileconfigQRCodeHandle r) (request_start ac ad lg)))
        = Some StatusOK /\
      header (w (serve (mobileconfigQRCodeHandle r) (request_start ac ad lg)))
        = {[ "Content-Type" := "image/png" ]} /\
      body (w (serve (mobileconfigQRCodeHandle r) (request_start ac ad lg)))
        = [Bytes (qr_PNG code)]
  | Some m =>
      status (w (serve (mobileconfigQRCodeHandle r) (request_start ac ad lg)))
        = Some StatusInternalServerError /\
      header (w (serve (mobileconfigQRCodeHandle r) (request_start ac ad lg)))
        = error_header /\
      body (w (serve (mobileconfigQRCodeHandle r) (request_start ac ad lg)))
        = error_body ("500 - internal server error - generating qr-code: " +:+ m)
  end.
Proof.
  intros Hm Hp Henc.
  unfold serve, mobileconfigQRCodeHandle, bind, when.
  rewrite (method_is _ _ Hm), Hp, HasSuffix_append. cbn [negb].
  rewrite (mobileconfigQRCodeHandle_url_path r p Hp), Henc.
  destruct err as [m|]; cbn [is_nil negb]; repeat split.
Qed.

(** X19. Whatever the request, the QR code handler answers with status
    200, 404, 405 or 500, never with 400; it touches neither counter
    vector, does not read the request body and, its write succeeding,
    logs nothing. *)
Theorem qrcode_outcomes (r : URLRequest) (s : World) :
  (status (w s) = None ->
   In (status (w (serve (mobileconfigQRCodeHandle r) s)))
      [Some StatusOK; Some StatusNotFound; Some StatusMethodNotAllowed;
       Some StatusInternalServerError]) /\
  metricAutoconf (serve (mobileconfigQRCodeHandle r) s) = metricAutoconf s /\
  metricAutodiscover (serve (mobileconfigQRCodeHandle r) s) = metricAutodiscover s /\
  logged (serve (mobileconfigQRCodeHandle r) s) = logged s /\
  bodyRead (serve (mobileconfigQRCodeHandle r) s) = bodyRead s.
Proof.
  unfold serve, mobileconfigQRCodeHandle, bind, when.
  destruct (String.eqb (Method (request r)) "GET"); cbn [negb].
  2:{ split; [|now repeat split]. intros Hs. cbn. rewrite Hs. cbn. tauto. }
  destruct (strings.HasSuffix (url.Path (URL r)) ".qrcode.png"); cbn [negb].
  2:{ split; [|now repeat split]. intros Hs. cbn. rewrite Hs. cbn. tauto. }
  destruct (qr_Encode _ _) as [code [m|]]; cbn [is_nil negb].
  - split; [|now repeat split]. intros Hs. cbn. rewrite Hs. cbn. tauto.
  - split; [|now repeat split]. intros Hs. cbn. rewrite Hs. cbn. tauto.
Qed.

End QRCodeExtras.

Lemma qrcode_rejections_witness :
  status (w (serve (@mobileconfigQRCodeHandle TestQR.imports TestQR.qr_plain) Test.start))
    = Some StatusNotFound.
Proof.
  assert (Hno : forall p, url.Path (URL TestQR.qr_plain) <> p +:+ ".qrcode.png").
  { intros p Hp. apply (f_equal (fun s => strings.HasSuffix s ".qrcode.png")) in Hp.
    rewrite HasSuffix_append in Hp. vm_compute in Hp. discriminate. }
  exact (proj1 (proj2 (@qrcode_rejections TestQR.imports TestQR.qr_plain ∅ ∅ [])
                  eq_refl Hno)).
Defined.

Lemma qrcode_answer_witness :
  status (w (serve (@mobileconfigQRCodeHandle TestQR.imports TestQR.qr_request)
               Test.start)) = Some StatusOK /\
  body (w (serve (@mobileconfigQRCodeHandle TestQR.imports TestQR.qr_request)
             Test.start))
    = [Bytes (list_byte_of_string "https://mail.example.org/profile")].
Proof.
  destruct (@qrcode_answer TestQR.imports TestQR.qr_request ∅ ∅ [] "/profile"
              "https://mail.example.org/profile" None eq_refl eq_refl eq_refl)
    as (Hst & _ & Hbody).
  split; [exact Hst | exact Hbody].
Defined.

Lemma qrcode_outcomes_witness :
  In (status (w (serve (@mobileconfigQRCodeHandle TestQR.imports TestQR.qr_long)
                   Test.start)))
     [Some StatusOK; Some StatusNotFound; Some StatusMethodNotAllowed;
      Some StatusInternalServerError].
Proof.
  exact (proj1 (@qrcode_outcomes TestQR.imports TestQR.qr_long Test.start) eq_refl).
Defined.
